(** * Gaussian-process kernels compiled to ONNX graphs

    A shallow embedding of [skl2onnx/operator_converters/_gp_kernels.py]:
    the two dispatchers [convert_kernel] and [convert_kernel_diag], the
    formula compilers they call and the zero builder [_zero_vector_of_size].

    The converters only build a graph; they never compute a number with the
    runtime.  The embedding therefore has two layers:

    - the graph builders, translated statement by statement, over exact
      rational kernel parameters (every finite Python float is a rational),
      with Python exceptions as an error monad;
    - a denotation of the emitted graph over the reals, which stands for the
      runtime.  Floating rounding is outside of it. *)

From Stdlib Require Import List String ZArith QArith Reals Qreals Lia Lra Bool.
Import ListNotations.

Local Open Scope string_scope.
Local Open Scope nat_scope.

(** ** Python exceptions *)

(** The exception classes raised by the module (messages are not kept), and
    [AttributeError] for the attribute access [x_train.shape] on an operand
    that is not an array. *)
Inductive exn : Type :=
| RuntimeError
| ValueError
| TypeError
| NotImplementedError
| AttributeError.

Inductive result (A : Type) : Type :=
| Ok (a : A)
| Raise (e : exn).

Arguments Ok {A} a.
Arguments Raise {A} e.

Definition bind {A B : Type} (r : result A) (f : A -> result B) : result B :=
  match r with
  | Ok a => f a
  | Raise e => Raise e
  end.

Notation "x <- e ;; f" := (bind e (fun x => f))
  (at level 61, e at next level, right associativity).

Definition succeeds {A : Type} (r : result A) : bool :=
  match r with Ok _ => true | Raise _ => false end.

(** ** Host-side values *)

(** numpy dtypes that occur in the module; [py_type] is Python's builtin
    [type], which line 384 passes where a dtype is expected.  A [dtype]
    argument is an [option np_dtype], [None] being Python's [None]. *)
Inductive np_dtype : Type := float32 | float64 | int64 | py_type.

Definition np_dtype_eqb (a b : np_dtype) : bool :=
  match a, b with
  | float32, float32 | float64, float64 | int64, int64 | py_type, py_type => true
  | _, _ => false
  end.

Definition dtype_eqb (a b : option np_dtype) : bool :=
  match a, b with
  | None, None => true
  | Some x, Some y => np_dtype_eqb x y
  | _, _ => false
  end.

(** [dtype in (np.float32, np.float64)] *)
Definition is_float_dtype (dtype : option np_dtype) : bool :=
  match dtype with
  | Some float32 | Some float64 => true
  | _ => false
  end.

(** A host number that ends up in a constant: a rational, the square root
    [q ** 0.5] of a rational, or [math.pi]. *)
Inductive cst : Type :=
| CQ (q : Q)
| CRoot (q : Q)
| CPi.

(** A kernel hyper-parameter is a Python number or a one-dimensional
    [np.ndarray]. *)
Inductive param : Type :=
| PNum (q : Q)
| PArr (v : list Q).

(** [isinstance(p, (float, int))] *)
Definition is_float_or_int (p : param) : bool :=
  match p with PNum _ => true | PArr _ => false end.

(** [p ** 2], taken exactly: the rounding of Python floats, and the
    OverflowError of [**] on a float whose square leaves the double range,
    are outside the model. *)
Definition param_sq (p : param) : param :=
  match p with
  | PNum q => PNum (q ^ 2)%Q
  | PArr v => PArr (map (fun q => (q ^ 2)%Q) v)
  end.

(** A Python float that may be [np.inf] (the smoothness [nu]). *)
Inductive pyfloat : Type :=
| Fin (q : Q)
| Inf.

(** [a == b] on such floats *)
Definition pyfloat_eqb (a b : pyfloat) : bool :=
  match a, b with
  | Fin x, Fin y => Qeq_bool x y
  | Inf, Inf => true
  | _, _ => false
  end.

(** A numeric array known at conversion time: its shape and its entries in
    row-major order. *)
Record ndarray : Type := mk_ndarray {
  nd_shape : list nat;
  nd_data : list Q
}.

(** ** Kernel expressions (sklearn.gaussian_process.kernels) *)

(** One constructor per class the dispatchers test with [type(kernel) is];
    [OtherKernel] is any other kernel class (a subclass of one of these
    included, since the tests are on the exact type). *)
Inductive kernel : Type :=
| Sum (k1 k2 : kernel)
| Product (k1 k2 : kernel)
| ConstantKernel (constant_value : Q)
| RBF (length_scale : param)
| Matern (length_scale : param) (nu : pyfloat)
| RationalQuadratic (length_scale alpha : Q)
| ExpSineSquared (length_scale : param) (periodicity : Q)
| DotProduct (sigma_0 : param)
| PairwiseKernel (metric : string)
| WhiteKernel (noise_level : Q)
| OtherKernel (class_name : string).

(** [isinstance(kernel, RBF)]: in sklearn [Matern] derives from [RBF]. *)
Definition isinstance_RBF (k : kernel) : bool :=
  match k with
  | RBF _ | Matern _ _ => true
  | _ => false
  end.

(** ** The emitted graph *)

(** Attribute [value] of ConstantOfShape: [from_array(np.array(vals, dtype))].
    As for [np_array1] below, the tag is the caller's [dtype]. *)
Record tensor_proto : Type := from_array {
  tp_dtype : option np_dtype;
  tp_vals : list cst
}.

Inductive unop : Type :=
| OpTranspose (perm : list nat)
| OpExp
| OpNeg
| OpShape
| OpSin
| OpSqueezeApi11 (axes : list nat)
| OpIdentity
| OpReduceSumSquareApi18 (axes : list nat)
| OpReduceL2_typed (dtype : option np_dtype) (axes : list nat)
| OpEyeLike
| OpConstantOfShape (value : tensor_proto)
| Fn_squareform_pdist (metric : string) (dtype : option np_dtype).

Inductive binop : Type :=
| OpMul
| OpMatMul
| OpAdd
| OpDiv
| OpPow
| OpGather
| OpConcat (axis : nat)
| OpCDist (metric : string)
| Fn_cdist (metric : string) (dtype : option np_dtype).

(** An operand of a node is a graph input, a numpy array handed over by the
    caller, an array built on the host by the converter, or another node.
    Every node records the [output_names] and [op_version] it was built
    with. *)
Inductive onnx : Type :=
| Input (name : string)
| Array (a : ndarray)
| NpArray (dtype : option np_dtype) (shape : list nat) (vals : list cst)
| NpTransposed (dtype : option np_dtype) (a : ndarray)
| NpCosineTransposed (dtype : option np_dtype) (a : ndarray)
| Node1 (op : unop) (x : onnx)
        (output_names : option (list string)) (op_version : nat)
| Node2 (op : binop) (x y : onnx)
        (output_names : option (list string)) (op_version : nat).

(** The operator classes of [..algebra.onnx_ops], with the keyword arguments
    the module passes. *)
Definition OnnxMul x y output_names op_version :=
  Node2 OpMul x y output_names op_version.
Definition OnnxMatMul x y op_version := Node2 OpMatMul x y None op_version.
Definition OnnxAdd x y output_names op_version :=
  Node2 OpAdd x y output_names op_version.
Definition OnnxTranspose x perm op_version :=
  Node1 (OpTranspose perm) x None op_version.
Definition OnnxDiv x y op_version := Node2 OpDiv x y None op_version.
Definition OnnxExp x output_names op_version :=
  Node1 OpExp x output_names op_version.
Definition OnnxNeg x op_version := Node1 OpNeg x None op_version.
Definition OnnxShape x op_version := Node1 OpShape x None op_version.
Definition OnnxSin x op_version := Node1 OpSin x None op_version.
Definition OnnxPow x y op_version := Node2 OpPow x y None op_version.
Definition OnnxSqueezeApi11 x output_names axes op_version :=
  Node1 (OpSqueezeApi11 axes) x output_names op_version.
Definition OnnxIdentity x output_names op_version :=
  Node1 OpIdentity x output_names op_version.
Definition OnnxReduceSumSquareApi18 x axes op_version :=
  Node1 (OpReduceSumSquareApi18 axes) x None op_version.
Definition OnnxReduceL2_typed dtype x axes op_version :=
  Node1 (OpReduceL2_typed dtype axes) x None op_version.
Definition OnnxEyeLike x op_version := Node1 OpEyeLike x None op_version.
Definition OnnxGather x y op_version := Node2 OpGather x y None op_version.
Definition OnnxConcat x y axis op_version :=
  Node2 (OpConcat axis) x y None op_version.
Definition OnnxConstantOfShape x output_names op_version value :=
  Node1 (OpConstantOfShape value) x output_names op_version.
Definition OnnxCDist x y metric op_version :=
  Node2 (OpCDist metric) x y None op_version.

(** Modelled from the spec: [onnx_cdist] and [onnx_squareform_pdist] of
    [..algebra.complex_functions] are not in the sources at hand.  They are
    the unfused distance strategy ("emit the distance purely from elementary
    operations") and the self-pairwise form; each call is kept as one node
    that records its metric and dtype, and the denotation below gives it the
    pairwise distance the spec names. *)
Definition onnx_cdist x y metric dtype op_version :=
  Node2 (Fn_cdist metric dtype) x y None op_version.
Definition onnx_squareform_pdist x metric dtype op_version :=
  Node1 (Fn_squareform_pdist metric dtype) x None op_version.

(** [np.array([c], dtype=dtype)].  The array keeps the caller's [dtype] as
    its tag; with [dtype=None] numpy chooses a dtype from the value, which
    the tag [None] does not tell. *)
Definition np_array1 (c : cst) (dtype : option np_dtype) : onnx :=
  NpArray dtype [1] [c].

(** ** The converters *)

(** Host values [py_make_float_array] is called on. *)
Inductive hostval : Type :=
| HNum (c : cst)
| HArr (v : list Q).

Definition hostval_of_param (p : param) : hostval :=
  match p with
  | PNum q => HNum (CQ q)
  | PArr v => HArr v
  end.

(** Lines 122-134 ([as_tensor] is never set by this module). *)
Definition py_make_float_array (c : hostval) (dtype : option np_dtype)
  : result onnx :=
  if negb (is_float_dtype dtype) then Raise TypeError
  else match c with
       | HArr v => Ok (NpArray dtype [List.length v] (map CQ v))
       | HNum x => Ok (NpArray dtype [1] [x])
       end.

(** Lines 538-571.  [keepdims] is [None], or a flag tested for truth. *)
Definition _zero_vector_of_size (X : onnx) (output_names : option (list string))
    (axis : nat) (keepdims : option bool) (dtype : option np_dtype)
    (op_version : option nat) : result onnx :=
  match op_version with
  | None => Raise RuntimeError
  | Some opv =>
    match keepdims with
    | None => Raise ValueError
    | Some kd =>
      let shape := OnnxShape X opv in
      let new_shape :=
        if axis =? 0 then
          let dim := OnnxGather shape (np_array1 (CQ 0) (Some int64)) opv in
          if kd
          then OnnxConcat dim (np_array1 (CQ 1) (Some int64)) 0 opv
          else dim
        else
          let dim := OnnxGather shape (np_array1 (CQ 1) (Some int64)) opv in
          if kd
          then OnnxConcat (np_array1 (CQ 1) (Some int64)) dim 0 opv
          else dim in
      Ok (OnnxConstantOfShape new_shape output_names opv
            (from_array dtype [CQ 0]))
    end
  end.

(** Lines 46-119. *)
Fixpoint convert_kernel_diag (kernel : kernel) (X : onnx)
    (output_names : option (list string)) (dtype : option np_dtype)
    (optim : option string) (op_version : option nat) : result onnx :=
  match op_version with
  | None => Raise RuntimeError
  | Some opv =>
    match kernel with
    | Sum k1 k2 =>
      a <- convert_kernel_diag k1 X None dtype optim op_version ;;
      b <- convert_kernel_diag k2 X None dtype optim op_version ;;
      Ok (OnnxAdd a b output_names opv)
    | Product k1 k2 =>
      a <- convert_kernel_diag k1 X None dtype optim op_version ;;
      b <- convert_kernel_diag k2 X None dtype optim op_version ;;
      Ok (OnnxMul a b output_names opv)
    | ConstantKernel constant_value =>
      onnx_zeros <- _zero_vector_of_size X None 0 (Some false) dtype op_version ;;
      Ok (OnnxAdd onnx_zeros (np_array1 (CQ constant_value) dtype)
            output_names opv)
    | RBF _ | ExpSineSquared _ _ | RationalQuadratic _ _ | Matern _ _ =>
      onnx_zeros <- _zero_vector_of_size X None 0 (Some false) dtype op_version ;;
      if isinstance_RBF kernel
      then Ok (OnnxAdd onnx_zeros (np_array1 (CQ 1) dtype) output_names opv)
      else Ok (OnnxAdd onnx_zeros (np_array1 (CQ 1) dtype) output_names opv)
    | DotProduct sigma_0 =>
      t_sigma_0 <- py_make_float_array (hostval_of_param (param_sq sigma_0)) dtype ;;
      Ok (OnnxSqueezeApi11
            (OnnxAdd (OnnxReduceSumSquareApi18 X [1] opv) t_sigma_0 None opv)
            output_names [1] opv)
    | PairwiseKernel _ | WhiteKernel _ | OtherKernel _ => Raise RuntimeError
    end
  end.

(** [isinstance(Y, np.ndarray)]: of the operands a caller hands over, the
    arrays are the [Array] ones (the arrays the converters build themselves
    are never passed on as [X] or [x_train]). *)
Definition as_ndarray (Y : onnx) : option ndarray :=
  match Y with
  | Array a => Some a
  | _ => None
  end.

(** [Y.shape]; only arrays have the attribute. *)
Definition shape_attr (Y : onnx) : result (list nat) :=
  match as_ndarray Y with
  | Some a => Ok (nd_shape a)
  | None => Raise AttributeError
  end.

(** The choice of distance strategy that lines 151-156 and 206-213 repeat:
    no [optim] gives the unfused form, ["cdist"] the fused CDist node. *)
Definition select_cdist (X Y : onnx) (metric : string)
    (dtype : option np_dtype) (optim : option string) (op_version : nat)
  : result onnx :=
  match optim with
  | None => Ok (onnx_cdist X Y metric dtype op_version)
  | Some o =>
    if String.eqb o "cdist" then Ok (OnnxCDist X Y metric op_version)
    else Raise ValueError
  end.

(** Lines 137-180.  The formula compilers are only called by [convert_kernel],
    after it has checked [op_version], so they take it as a number;
    [**kwargs] is the [output_names] the dispatcher passes. *)
Definition _convert_exp_sine_squared (X Y : onnx) (length_scale : param)
    (periodicity : Q) (dtype : option np_dtype) (optim : option string)
    (op_version : nat) (output_names : option (list string)) : result onnx :=
  dists <- select_cdist X Y "euclidean" dtype optim op_version ;;
  t_pi <- py_make_float_array (HNum CPi) dtype ;;
  t_periodicity <- py_make_float_array (HNum (CQ periodicity)) dtype ;;
  let arg := OnnxMul (OnnxDiv dists t_periodicity op_version) t_pi
               None op_version in
  let sin_of_arg := OnnxSin arg op_version in
  t_2 <- py_make_float_array (HNum (CQ 2)) dtype ;;
  t__2 <- py_make_float_array (HNum (CQ (-2))) dtype ;;
  t_length_scale <- py_make_float_array (hostval_of_param length_scale) dtype ;;
  let K := OnnxExp
             (OnnxMul
                (OnnxPow (OnnxDiv sin_of_arg t_length_scale op_version) t_2
                   op_version)
                t__2 None op_version)
             None op_version in
  Ok (OnnxIdentity K output_names op_version).

(** Lines 183-196. *)
Definition _convert_dot_product (X Y : onnx) (sigma_0 : param)
    (dtype : option np_dtype) (op_version : nat)
    (output_names : option (list string)) : result onnx :=
  t_sigma_0 <- py_make_float_array (hostval_of_param (param_sq sigma_0)) dtype ;;
  let tr := match as_ndarray Y with
            | Some a => NpTransposed dtype a
            | None => OnnxTranspose Y [1; 0] op_version
            end in
  let matm := OnnxMatMul X tr op_version in
  let K := OnnxAdd matm t_sigma_0 None op_version in
  Ok (OnnxIdentity K output_names op_version).

(** Lines 199-221.  The host-side product of line 214 is taken exactly, as
    in [param_sq]. *)
Definition _convert_rational_quadratic (X Y : onnx) (length_scale alpha : Q)
    (dtype : option np_dtype) (optim : option string) (op_version : nat)
    (output_names : option (list string)) : result onnx :=
  dists <- select_cdist X Y "sqeuclidean" dtype optim op_version ;;
  let cst := (length_scale ^ 2 * alpha * 2)%Q in
  t_cst <- py_make_float_array (HNum (CQ cst)) dtype ;;
  let tmp := OnnxDiv dists t_cst op_version in
  t_one <- py_make_float_array (HNum (CQ 1)) dtype ;;
  let base := OnnxAdd tmp t_one None op_version in
  t_alpha <- py_make_float_array (HNum (CQ (- alpha))) dtype ;;
  let K := OnnxPow base t_alpha op_version in
  Ok (OnnxIdentity K output_names op_version).

(** Lines 224-262; [optim] is accepted and not used.  On an array [Y] the
    norm is taken on the host, where [np.sum(..., axis=1)] raises numpy's
    AxisError, a [ValueError], when [Y] has fewer than two dimensions. *)
Definition _convert_pairwise_kernel (X Y : onnx) (metric : string)
    (dtype : option np_dtype) (op_version : nat) (optim : option string)
    (output_names : option (list string)) : result onnx :=
  if String.eqb metric "cosine" then
    norm_try <-
      match as_ndarray Y with
      | Some a =>
        if List.length (nd_shape a) <? 2 then Raise ValueError
        else Ok (NpCosineTransposed dtype a)
      | None =>
        let ny := OnnxReduceL2_typed dtype Y [1] op_version in
        let norm_y := OnnxDiv Y ny op_version in
        Ok (OnnxTranspose norm_y [1; 0] op_version)
      end ;;
    let nx := OnnxReduceL2_typed dtype X [1] op_version in
    let norm_x := OnnxDiv X nx op_version in
    let K := OnnxMatMul norm_x norm_try op_version in
    Ok (OnnxIdentity K output_names op_version)
  else Raise NotImplementedError.

(** Lines 321-324: the length scale as an array; [np.array([a])] of an
    empty array [a] has shape (1, 0). *)
Definition length_scale_const (length_scale : param)
    (dtype : option np_dtype) : onnx :=
  match length_scale with
  | PArr v =>
    if 0 <? List.length v then NpArray dtype [List.length v] (map CQ v)
    else NpArray dtype [1; 0] []
  | PNum q => np_array1 (CQ q) dtype
  end.

(** Lines 320-351, the part the RBF and Matern branches share: the scaled
    operands and their pairwise distance.  [is_rbf] is [type(kernel) is RBF]. *)
Definition scaled_distance (is_rbf : bool) (length_scale : param) (X : onnx)
    (x_train : option onnx) (dtype : option np_dtype) (optim : option string)
    (op_version : nat) : result onnx :=
  let const := length_scale_const length_scale dtype in
  let X_scaled := OnnxDiv X const op_version in
  match x_train with
  | None =>
    Ok (onnx_squareform_pdist X_scaled
          (if is_rbf then "sqeuclidean" else "euclidean") dtype op_version)
  | Some x_train =>
    let x_train_scaled := OnnxDiv x_train const op_version in
    match optim with
    | None =>
      Ok (onnx_cdist X_scaled x_train_scaled
            (if is_rbf then "sqeuclidean" else "euclidean") dtype op_version)
    | Some o =>
      if String.eqb o "cdist"
      then Ok (OnnxCDist X_scaled x_train_scaled "sqeuclidean" op_version)
      else Raise ValueError
    end
  end.

(** Lines 361-413, the Matern formulas on the distance [dist]. *)
Definition matern_formula (nu : pyfloat) (dist : onnx)
    (output_names : option (list string)) (dtype : option np_dtype)
    (op_version : nat) : result onnx :=
  if pyfloat_eqb nu (Fin (1 # 2)) then
    Ok (OnnxExp (OnnxNeg dist op_version) output_names op_version)
  else if pyfloat_eqb nu (Fin (3 # 2)) then
    let K := OnnxMul dist (np_array1 (CRoot 3) dtype) None op_version in
    let exp_k := OnnxExp (OnnxNeg K op_version) None op_version in
    let k_1 := OnnxAdd K (np_array1 (CQ 1) dtype) None op_version in
    Ok (OnnxMul k_1 exp_k output_names op_version)
  else if pyfloat_eqb nu (Fin (5 # 2)) then
    let K := OnnxMul dist (np_array1 (CRoot 5) dtype) None op_version in
    let exp_k := OnnxExp (OnnxNeg K op_version) None op_version in
    let k_12 :=
      OnnxAdd
        (OnnxAdd K (np_array1 (CQ 1) (Some py_type)) None op_version)
        (OnnxDiv (OnnxMul K K None op_version) (np_array1 (CQ 3) dtype)
           op_version)
        None op_version in
    Ok (OnnxMul k_12 exp_k output_names op_version)
  else if pyfloat_eqb nu Inf then
    Ok (OnnxExp
          (OnnxNeg
             (OnnxDiv (OnnxMul dist dist None op_version)
                (np_array1 (CQ 2) dtype) op_version)
             op_version)
          output_names op_version)
  else Raise RuntimeError.

(** Lines 298-317 and 507-519: the zero matrix with a row per point of [X]
    and a column per point of [x_train] (of [X] without one). *)
Definition zeros_matrix (X : onnx) (x_train : option onnx)
    (dtype : option np_dtype) (op_version : nat) : result onnx :=
  onnx_zeros_x <-
    _zero_vector_of_size X None 0 (Some true) dtype (Some op_version) ;;
  onnx_zeros_y <-
    match x_train with
    | None => Ok onnx_zeros_x
    | Some x_train =>
      _zero_vector_of_size x_train None 0 (Some true) dtype (Some op_version)
    end ;;
  let tr := OnnxTranspose onnx_zeros_y [1; 0] op_version in
  Ok (OnnxMatMul onnx_zeros_x tr op_version).

(** Lines 265-535. *)
Fixpoint convert_kernel (kernel : kernel) (X : onnx)
    (output_names : option (list string)) (x_train : option onnx)
    (dtype : option np_dtype) (optim : option string)
    (op_version : option nat) : result onnx :=
  match op_version with
  | None => Raise RuntimeError
  | Some opv =>
    match kernel with
    | Sum k1 k2 =>
      a <- convert_kernel k1 X None x_train dtype optim op_version ;;
      b <- convert_kernel k2 X None x_train dtype optim op_version ;;
      Ok (OnnxAdd a b output_names opv)
    | Product k1 k2 =>
      a <- convert_kernel k1 X None x_train dtype optim op_version ;;
      b <- convert_kernel k2 X None x_train dtype optim op_version ;;
      Ok (OnnxMul a b output_names opv)
    | ConstantKernel constant_value =>
      mat <- zeros_matrix X x_train dtype opv ;;
      Ok (OnnxAdd mat (np_array1 (CQ constant_value) dtype) output_names opv)
    | RBF length_scale =>
      dist <- scaled_distance true length_scale X x_train dtype optim opv ;;
      let K := OnnxMul dist (np_array1 (CQ (1 # 2)) dtype) None opv in
      Ok (OnnxExp (OnnxNeg K opv) output_names opv)
    | Matern length_scale nu =>
      dist <- scaled_distance false length_scale X x_train dtype optim opv ;;
      matern_formula nu dist output_names dtype opv
    | ExpSineSquared length_scale periodicity =>
      if negb (is_float_or_int length_scale) then Raise NotImplementedError
      else
        _convert_exp_sine_squared X
          (match x_train with None => X | Some x_train => x_train end)
          length_scale periodicity dtype optim opv output_names
    | DotProduct sigma_0 =>
      if negb (is_float_or_int sigma_0) then Raise NotImplementedError
      else
        match x_train with
        | None => _convert_dot_product X X sigma_0 dtype opv output_names
        | Some x_train =>
          shape <- shape_attr x_train ;;
          if negb (List.length shape =? 2) then Raise NotImplementedError
          else _convert_dot_product X x_train sigma_0 dtype opv output_names
        end
    | RationalQuadratic length_scale alpha =>
      match x_train with
      | None =>
        _convert_rational_quadratic X X length_scale alpha dtype optim opv
          output_names
      | Some x_train =>
        _convert_rational_quadratic X x_train length_scale alpha dtype optim
          opv output_names
      end
    | PairwiseKernel metric =>
      match x_train with
      | None =>
        _convert_pairwise_kernel X X metric dtype opv optim output_names
      | Some x_train =>
        _convert_pairwise_kernel X x_train metric dtype opv optim output_names
      end
    | WhiteKernel noise_level =>
      mat <- zeros_matrix X x_train dtype opv ;;
      match x_train with
      | Some _ => Ok (OnnxIdentity mat output_names opv)
      | None =>
        Ok (OnnxMul (OnnxEyeLike mat opv)
              (OnnxIdentity (np_array1 (CQ noise_level) dtype) None opv)
              output_names opv)
      end
    | OtherKernel _ => Raise RuntimeError
    end
  end.

(** ** Denotation of the emitted graph *)

(** What a node evaluates to: a vector or a matrix over the reals, or a
    one-dimensional int64 tensor (a shape).  Entries are read through a
    function; only the indices below the dimensions matter. *)
Inductive tensor : Type :=
| TVec (n : nat) (v : nat -> R)
| TMat (r c : nat) (m : nat -> nat -> R)
| TInt (l : list Z).

(** The binding of graph inputs to run-time tensors. *)
Definition env : Type := string -> option tensor.

(** [rsum n f] is f 0 + ... + f (n-1). *)
Fixpoint rsum (n : nat) (f : nat -> R) : R :=
  match n with
  | O => 0%R
  | S k => (rsum k f + f k)%R
  end.

Definition cst_denote (c : cst) : R :=
  match c with
  | CQ q => Q2R q
  | CRoot q => sqrt (Q2R q)
  | CPi => PI
  end.

(** An entry of an int64 array. *)
Definition cst_int (c : cst) : option Z :=
  match c with
  | CQ q => if Pos.eqb (Qden q) 1 then Some (Qnum q) else None
  | _ => None
  end.

Fixpoint cst_ints (l : list cst) : option (list Z) :=
  match l with
  | [] => Some []
  | c :: l' =>
    match cst_int c, cst_ints l' with
    | Some z, Some zs => Some (z :: zs)
    | _, _ => None
    end
  end.

(** Broadcasting of two dimensions, and the index read in an operand of
    dimension [d]. *)
Definition bdim (a b : nat) : option nat :=
  if a =? b then Some a
  else if a =? 1 then Some b
  else if b =? 1 then Some a
  else None.

Definition bidx (d i : nat) : nat := if d =? 1 then 0 else i.

(** Elementwise binary operators, numpy broadcasting up to two dimensions (a
    vector against a matrix counts as one row). *)
Definition broadcast2 (op : R -> R -> R) (x y : tensor) : option tensor :=
  match x, y with
  | TVec n u, TVec m v =>
    match bdim n m with
    | Some k => Some (TVec k (fun i => op (u (bidx n i)) (v (bidx m i))))
    | None => None
    end
  | TMat r c a, TVec m v =>
    match bdim c m with
    | Some k => Some (TMat r k (fun i j => op (a i (bidx c j)) (v (bidx m j))))
    | None => None
    end
  | TVec n u, TMat r c b =>
    match bdim n c with
    | Some k => Some (TMat r k (fun i j => op (u (bidx n j)) (b i (bidx c j))))
    | None => None
    end
  | TMat r c a, TMat r' c' b =>
    match bdim r r', bdim c c' with
    | Some k, Some l =>
      Some (TMat k l (fun i j => op (a (bidx r i) (bidx c j))
                                   (b (bidx r' i) (bidx c' j))))
    | _, _ => None
    end
  | _, _ => None
  end.

Definition tmap (f : R -> R) (x : tensor) : option tensor :=
  match x with
  | TVec n v => Some (TVec n (fun i => f (v i)))
  | TMat r c m => Some (TMat r c (fun i j => f (m i j)))
  | TInt _ => None
  end.

(** Pow: an integral exponent is a repeated product (or its inverse), any
    other exponent goes through the exponential. *)
Definition tpow (x y : R) : R :=
  if Req_dec_T (IZR (Int_part y)) y then powerRZ x (Int_part y)
  else Rpower x y.

(** Modelled from the spec: the pairwise distance both strategies stand for,
    "a matrix of per-pair distances (Euclidean or squared-Euclidean) between
    rows of two point sets". *)
Definition sqdist (f : nat) (a b : nat -> nat -> R) (i j : nat) : R :=
  rsum f (fun k => ((a i k - b j k) * (a i k - b j k))%R).

Definition pairwise (metric : string) (x y : tensor) : option tensor :=
  match x, y with
  | TMat n f a, TMat m f' b =>
    if f =? f' then
      if String.eqb metric "sqeuclidean" then Some (TMat n m (sqdist f a b))
      else if String.eqb metric "euclidean"
      then Some (TMat n m (fun i j => sqrt (sqdist f a b i j)))
      else None
    else None
  | _, _ => None
  end.

Definition row_sumsq (c : nat) (m : nat -> nat -> R) (i : nat) : R :=
  rsum c (fun k => (m i k * m i k)%R).

Definition is_axes_1 (axes : list nat) : bool :=
  match axes with [1] => true | _ => false end.

Definition is_perm_10 (perm : list nat) : bool :=
  match perm with [1; 0] => true | _ => false end.

Definition eval_unop (op : unop) (x : tensor) : option tensor :=
  match op with
  | OpTranspose perm =>
    match x with
    | TMat r c m =>
      if is_perm_10 perm then Some (TMat c r (fun i j => m j i)) else None
    | _ => None
    end
  | OpExp => tmap exp x
  | OpNeg => tmap Ropp x
  | OpSin => tmap sin x
  | OpShape =>
    match x with
    | TVec n _ => Some (TInt [Z.of_nat n])
    | TMat r c _ => Some (TInt [Z.of_nat r; Z.of_nat c])
    | TInt l => Some (TInt [Z.of_nat (List.length l)])
    end
  | OpSqueezeApi11 axes =>
    match x with
    | TMat r c m =>
      if is_axes_1 axes && (c =? 1) then Some (TVec r (fun i => m i 0))
      else None
    | _ => None
    end
  | OpIdentity => Some x
  | OpReduceSumSquareApi18 axes =>
    match x with
    | TMat r c m =>
      if is_axes_1 axes then Some (TMat r 1 (fun i _ => row_sumsq c m i))
      else None
    | _ => None
    end
  | OpReduceL2_typed _ axes =>
    match x with
    | TMat r c m =>
      if is_axes_1 axes
      then Some (TMat r 1 (fun i _ => sqrt (row_sumsq c m i)))
      else None
    | _ => None
    end
  | OpEyeLike =>
    match x with
    | TMat r c _ => Some (TMat r c (fun i j => if i =? j then 1%R else 0%R))
    | _ => None
    end
  | OpConstantOfShape value =>
    match tp_vals value, x with
    | [v], TInt [n] =>
      if (0 <=? n)%Z then Some (TVec (Z.to_nat n) (fun _ => cst_denote v))
      else None
    | [v], TInt [r; c] =>
      if ((0 <=? r) && (0 <=? c))%Z
      then Some (TMat (Z.to_nat r) (Z.to_nat c) (fun _ _ => cst_denote v))
      else None
    | _, _ => None
    end
  | Fn_squareform_pdist metric _ => pairwise metric x x
  end.

Definition eval_binop (op : binop) (x y : tensor) : option tensor :=
  match op with
  | OpMul => broadcast2 Rmult x y
  | OpAdd => broadcast2 Rplus x y
  | OpDiv => broadcast2 Rdiv x y
  | OpPow => broadcast2 tpow x y
  | OpMatMul =>
    match x, y with
    | TMat r c a, TMat r' c' b =>
      if c =? r'
      then Some (TMat r c' (fun i j => rsum c (fun k => (a i k * b k j)%R)))
      else None
    | _, _ => None
    end
  | OpGather =>
    match x, y with
    | TInt l, TInt [k] =>
      if (0 <=? k)%Z then
        match nth_error l (Z.to_nat k) with
        | Some d => Some (TInt [d])
        | None => None
        end
      else None
    | _, _ => None
    end
  | OpConcat axis =>
    match x, y with
    | TInt l, TInt l' => if axis =? 0 then Some (TInt (l ++ l')) else None
    | _, _ => None
    end
  | OpCDist metric => pairwise metric x y
  | Fn_cdist metric _ => pairwise metric x y
  end.

(** Entry [(i, j)] of an array of shape [[r; c]] kept in row-major order. *)
Definition nd_entry (a : ndarray) (c i j : nat) : R :=
  Q2R (nth (i * c + j) (nd_data a) 0%Q).

Definition eval_ndarray (a : ndarray) : option tensor :=
  match nd_shape a with
  | [n] => Some (TVec n (fun i => Q2R (nth i (nd_data a) 0%Q)))
  | [r; c] => Some (TMat r c (nd_entry a c))
  | _ => None
  end.

(** The value of a constant.  An array built with Python's [type] as its
    dtype (line 384) is an array of Python objects: it is no tensor and has
    no value. *)
Definition eval_NpArray (dtype : option np_dtype) (shape : list nat)
    (vals : list cst) : option tensor :=
  if dtype_eqb dtype (Some int64) then
    match shape, cst_ints vals with
    | [_], Some l => Some (TInt l)
    | _, _ => None
    end
  else if dtype_eqb dtype (Some py_type) then None
  else
    match shape with
    | [n] => Some (TVec n (fun i => cst_denote (nth i vals (CQ 0))))
    | [r; c] =>
      Some (TMat r c (fun i j => cst_denote (nth (i * c + j) vals (CQ 0))))
    | _ => None
    end.

(** The value of a node, [None] when the runtime would reject it or when it
    leaves the vectors and matrices modelled here. *)
Fixpoint eval (rho : env) (g : onnx) : option tensor :=
  match g with
  | Input name => rho name
  | Array a => eval_ndarray a
  | NpArray dtype shape vals => eval_NpArray dtype shape vals
  | NpTransposed _ a =>
    match nd_shape a with
    | [n] => eval_ndarray a
    | [r; c] => Some (TMat c r (fun i j => nd_entry a c j i))
    | _ => None
    end
  | NpCosineTransposed _ a =>
    match nd_shape a with
    | [r; c] =>
      Some (TMat c r (fun i j =>
        (nd_entry a c j i / sqrt (row_sumsq c (nd_entry a c) j))%R))
    | _ => None
    end
  | Node1 op x _ _ =>
    match eval rho x with
    | Some t => eval_unop op t
    | None => None
    end
  | Node2 op x y _ _ =>
    match eval rho x, eval rho y with
    | Some t, Some u => eval_binop op t u
    | _, _ => None
    end
  end.

(** ** Predicates used in the statements *)

(** [optim] is one of the two values the strategy selection knows. *)
Definition recognized_optim (optim : option string) : bool :=
  match optim with
  | None => true
  | Some o => String.eqb o "cdist"
  end.

(** [nu] is one of the four smoothness values with a formula. *)
Definition nu_implemented (nu : pyfloat) : bool :=
  pyfloat_eqb nu (Fin (1 # 2)) || pyfloat_eqb nu (Fin (3 # 2))
  || pyfloat_eqb nu (Fin (5 # 2)) || pyfloat_eqb nu Inf.

(** [nu] is one of the smoothness values whose formula gives a graph with a
    value: 0.5, 1.5 and inf.  The formula for 2.5 holds the constant of line
    384, an array of Python objects. *)
Definition nu_evaluates (nu : pyfloat) : bool :=
  pyfloat_eqb nu (Fin (1 # 2)) || pyfloat_eqb nu (Fin (3 # 2))
  || (negb (pyfloat_eqb nu (Fin (5 # 2))) && pyfloat_eqb nu Inf).

(** The compilation of [kernel] reaches a selection between the two
    distance strategies, the only places where [optim] is looked at. *)
Fixpoint consults_optim (kernel : kernel) (x_train : option onnx) : bool :=
  match kernel with
  | Sum k1 k2 | Product k1 k2 =>
    consults_optim k1 x_train || consults_optim k2 x_train
  | RBF _ | Matern _ _ =>
    match x_train with Some _ => true | None => false end
  | ExpSineSquared length_scale _ => is_float_or_int length_scale
  | RationalQuadratic _ _ => true
  | _ => false
  end.

(** Every array and typed attribute of the graph [g] carries the dtype [d];
    the int64 index arrays of the zero builder are integers by construction. *)
Definition unop_in (d : option np_dtype) (op : unop) : bool :=
  match op with
  | OpReduceL2_typed dt _ => dtype_eqb dt d
  | OpConstantOfShape value => dtype_eqb (tp_dtype value) d
  | Fn_squareform_pdist _ dt => dtype_eqb dt d
  | _ => true
  end.

Definition binop_in (d : option np_dtype) (op : binop) : bool :=
  match op with
  | Fn_cdist _ dt => dtype_eqb dt d
  | _ => true
  end.

Fixpoint precision_in (d : option np_dtype) (g : onnx) : bool :=
  match g with
  | Input _ | Array _ => true
  | NpArray dt _ _ => dtype_eqb dt d || dtype_eqb dt (Some int64)
  | NpTransposed dt _ | NpCosineTransposed dt _ => dtype_eqb dt d
  | Node1 op x _ _ => unop_in d op && precision_in d x
  | Node2 op x y _ _ => binop_in d op && precision_in d x && precision_in d y
  end.


(** The tensor [t] has exactly the dimensions [shape] and all its entries
    are zero. *)
Definition is_zeros (t : tensor) (shape : list nat) : Prop :=
  match t, shape with
  | TVec n v, [n'] => n = n' /\ forall i, v i = 0%R
  | TMat r c m, [r'; c'] => r = r' /\ c = c' /\ forall i j, m i j = 0%R
  | _, _ => False
  end.

(** The shape [_zero_vector_of_size] gives its result on an input with [r]
    rows and [c] columns. *)
Definition zeros_shape (r c axis : nat) (keepdims : bool) : list nat :=
  if axis =? 0 then (if keepdims then [r; 1] else [r])
  else (if keepdims then [1; c] else [c]).

(** The graph [g] with the output names of its root node replaced. *)
Definition with_output_names (names : option (list string)) (g : onnx) : onnx :=
  match g with
  | Node1 op x _ v => Node1 op x names v
  | Node2 op x y _ v => Node2 op x y names v
  | _ => g
  end.

(** A DotProduct kernel occurs in the expression. *)
Fixpoint has_dot_product (kernel : kernel) : bool :=
  match kernel with
  | Sum k1 k2 | Product k1 k2 => has_dot_product k1 || has_dot_product k2
  | DotProduct _ => true
  | _ => false
  end.

(** A length scale that divides points with [f] features: a number, an
    array of one entry, or an array with one entry per feature. *)
Definition length_scale_fits (length_scale : param) (f : nat) : bool :=
  match length_scale with
  | PNum _ => true
  | PArr v =>
    (List.length v =? 1) || ((0 <? List.length v) && (List.length v =? f))
  end.




(** ** Inputs of the examples *)

(** The environment of the examples: [X] is bound to a 2 x 3 matrix. *)
Definition rho_2x3 : env :=
  fun name =>
    if String.eqb name "X" then Some (TMat 2 3 (fun i j => INR (i + j)))
    else None.

(** The one-point sets [[0]] and [[2]]. *)
Definition point_0 : ndarray := mk_ndarray [1; 1] [0%Q].
Definition point_2 : ndarray := mk_ndarray [1; 1] [2%Q].

(** The points 0 and 1 on a line, as a 2 x 1 array. *)
Definition two_points : ndarray := mk_ndarray [2; 1] [0%Q; 1%Q].

(** Three points of the plane, as a 3 x 2 array. *)
Definition three_points : ndarray :=
  mk_ndarray [3; 2] [0; 1; 2; 3; 5; 8]%Q.

(** A kernel expression with every supported kind of leaf. *)
Definition all_kinds : kernel :=
  Sum (Product (ConstantKernel 2) (RBF (PArr [1; 2]%Q)))
    (Sum (Product (Matern (PNum 1) (Fin (5 # 2))) (Matern (PNum 2) Inf))
       (Sum (RationalQuadratic 1 2)
          (Sum (ExpSineSquared (PNum 1) 3) (DotProduct (PNum 1))))).

(** The same expression with Matern(nu=1.5) in the place of Matern(nu=2.5):
    every leaf compiles into a graph with a value. *)
Definition all_kinds_with_a_value : kernel :=
  Sum (Product (ConstantKernel 2) (RBF (PArr [1; 2]%Q)))
    (Sum (Product (Matern (PNum 1) (Fin (3 # 2))) (Matern (PNum 2) Inf))
       (Sum (RationalQuadratic 1 2)
          (Sum (ExpSineSquared (PNum 1) 3) (DotProduct (PNum 1))))).

(** The points 0, 1 and 2 on a line, the unit vectors of the plane, and a
    set of four points. *)
Definition line_012 : ndarray := mk_ndarray [3; 1] [0; 1; 2]%Q.
Definition unit_x : ndarray := mk_ndarray [1; 2] [1; 0]%Q.
Definition unit_y : ndarray := mk_ndarray [1; 2] [0; 1]%Q.
Definition four_points : ndarray := mk_ndarray [4; 1] [0; 1; 2; 3]%Q.

(** ** Further predicates and quantities *)

(** Every node of [g] was built with the operation-set version [v]. *)
Fixpoint op_version_in (v : nat) (g : onnx) : bool :=
  match g with
  | Node1 _ x _ v' => (v' =? v) && op_version_in v x
  | Node2 _ x y _ v' => (v' =? v) && op_version_in v x && op_version_in v y
  | _ => true
  end.

(** No node of [g] carries output names. *)
Fixpoint unnamed (g : onnx) : bool :=
  match g with
  | Node1 _ x names _ =>
    match names with None => unnamed x | Some _ => false end
  | Node2 _ x y names _ =>
    match names with None => unnamed x && unnamed y | Some _ => false end
  | _ => true
  end.

(** No node below the root of [g] carries output names. *)
Definition operands_unnamed (g : onnx) : bool :=
  match g with
  | Node1 _ x _ _ => unnamed x
  | Node2 _ x y _ _ => unnamed x && unnamed y
  | _ => true
  end.

(** The output names of the root node of [g]. *)
Definition root_names (g : onnx) : option (list string) :=
  match g with
  | Node1 _ _ names _ | Node2 _ _ _ names _ => names
  | _ => None
  end.

(** The second operand of the pairwise formulas: [x_train], or [X] itself
    without one. *)
Definition second_operand (X : onnx) (x_train : option onnx) : onnx :=
  match x_train with
  | None => X
  | Some x_train => x_train
  end.

(** The training set passes the check of lines 438-451: there is none, or
    it is a 2-dimensional array. *)
Definition train_set_is_2d (x_train : option onnx) : bool :=
  match x_train with
  | None => true
  | Some x_train =>
    match as_ndarray x_train with
    | Some a => List.length (nd_shape a) =? 2
    | None => false
    end
  end.

(** The host-side norm of lines 250-252 can be taken on [Y]. *)
Definition cosine_operand_ok (Y : onnx) : bool :=
  match as_ndarray Y with
  | Some a => negb (List.length (nd_shape a) <? 2)
  | None => true
  end.

(** The conditions [convert_kernel] checks on its way to a graph; where one
    of them fails, it raises. *)
Fixpoint compiles (kernel : kernel) (X : onnx) (x_train : option onnx)
    (dtype : option np_dtype) (optim : option string) : bool :=
  match kernel with
  | Sum k1 k2 | Product k1 k2 =>
    compiles k1 X x_train dtype optim && compiles k2 X x_train dtype optim
  | ConstantKernel _ | WhiteKernel _ => true
  | RBF _ =>
    match x_train with None => true | Some _ => recognized_optim optim end
  | Matern _ nu =>
    match x_train with None => true | Some _ => recognized_optim optim end
    && nu_implemented nu
  | ExpSineSquared length_scale _ =>
    is_float_or_int length_scale && recognized_optim optim
    && is_float_dtype dtype
  | DotProduct sigma_0 =>
    is_float_or_int sigma_0 && train_set_is_2d x_train && is_float_dtype dtype
  | RationalQuadratic _ _ => recognized_optim optim && is_float_dtype dtype
  | PairwiseKernel metric =>
    String.eqb metric "cosine" && cosine_operand_ok (second_operand X x_train)
  | OtherKernel _ => false
  end.

(** The conditions [convert_kernel_diag] checks on its way to a graph; where
    one of them fails, it raises. *)
Fixpoint compiles_diag (kernel : kernel) (dtype : option np_dtype) : bool :=
  match kernel with
  | Sum k1 k2 | Product k1 k2 => compiles_diag k1 dtype && compiles_diag k2 dtype
  | ConstantKernel _ | RBF _ | Matern _ _ | RationalQuadratic _ _
  | ExpSineSquared _ _ => true
  | DotProduct _ => is_float_dtype dtype
  | PairwiseKernel _ | WhiteKernel _ | OtherKernel _ => false
  end.

(** A WhiteKernel occurs in the expression. *)
Fixpoint has_white_kernel (kernel : kernel) : bool :=
  match kernel with
  | Sum k1 k2 | Product k1 k2 => has_white_kernel k1 || has_white_kernel k2
  | WhiteKernel _ => true
  | _ => false
  end.

(** The length scale that applies to feature [k]. *)
Definition length_scale_at (length_scale : param) (k : nat) : R :=
  match length_scale with
  | PNum q => Q2R q
  | PArr v => Q2R (nth (bidx (List.length v) k) v 0%Q)
  end.

(** The squared Euclidean distance between point [i] of [x] and point [j]
    of [y], both divided by the length scale, over [f] features. *)
Definition scaled_sqdist (length_scale : param) (f : nat)
    (x y : nat -> nat -> R) (i j : nat) : R :=
  rsum f (fun k =>
    ((x i k / length_scale_at length_scale k
      - y j k / length_scale_at length_scale k)
     * (x i k / length_scale_at length_scale k
        - y j k / length_scale_at length_scale k))%R).

(** The scalar product of point [i] of [x] and point [j] of [y]. *)
Definition dot (f : nat) (x y : nat -> nat -> R) (i j : nat) : R :=
  rsum f (fun k => (x i k * y j k)%R).

(** Lines 326-351 hand Matern the Euclidean distance: there is no training
    set, or the strategy is the unfused one. *)
Definition matern_gets_euclidean (x_train : option onnx)
    (optim : option string) : bool :=
  match x_train, optim with
  | Some _, Some _ => false
  | _, _ => true
  end.

(** The closed forms of the Matern kernel at distance [d] for [nu] among
    0.5, 1.5 and inf, selected by the same tests on [nu] as lines 362-411. *)
Definition matern_closed_form (nu : pyfloat) (d : R) : R :=
  if pyfloat_eqb nu (Fin (1 # 2)) then exp (- d)
  else if pyfloat_eqb nu (Fin (3 # 2)) then
    ((d * sqrt 3 + 1) * exp (- (d * sqrt 3)))%R
  else exp (- (d * d / 2)).

(** The expressions [convert_kernel] compiles on points with [f] features
    when the dtype is float and [optim] is recognized. *)
Fixpoint compiles_on (kernel : kernel) (f : nat) : bool :=
  match kernel with
  | Sum k1 k2 | Product k1 k2 => compiles_on k1 f && compiles_on k2 f
  | ConstantKernel _ | WhiteKernel _ | RationalQuadratic _ _ => true
  | RBF length_scale => length_scale_fits length_scale f
  | Matern length_scale nu =>
    length_scale_fits length_scale f && nu_evaluates nu
  | ExpSineSquared length_scale _ => is_float_or_int length_scale
  | DotProduct sigma_0 => is_float_or_int sigma_0
  | PairwiseKernel metric => String.eqb metric "cosine"
  | OtherKernel _ => false
  end.

(** An environment that binds [X] to a 2 x 2 matrix. *)
Definition rho_2x2 : env :=
  fun name =>
    if String.eqb name "X" then Some (TMat 2 2 (fun i j => INR (i + j)))
    else None.

(** ** Basic facts *)


Lemma bind_Ok {A B : Type} (r : result A) (f : A -> result B) (b : B) :
  bind r f = Ok b -> exists a, r = Ok a /\ f a = Ok b.
Proof. destruct r as [a|e]; simpl; intros H; [eauto | discriminate]. Qed.

Lemma py_make_float_array_Ok (c : hostval) (dtype : option np_dtype) :
  is_float_dtype dtype = true ->
  py_make_float_array c dtype =
  Ok (match c with
      | HArr v => NpArray dtype [List.length v] (map CQ v)
      | HNum x => NpArray dtype [1] [x]
      end).
Proof. intros H. unfold py_make_float_array. rewrite H. destruct c; reflexivity. Qed.


(** ** Missing operation-set version *)

(** C7: with [op_version=None] both [convert_kernel] and
    [convert_kernel_diag] raise the RuntimeError of their first statement,
    whatever the kernel and the other arguments; no graph is returned. *)
Theorem op_version_None_raises :
  forall (k : kernel) (X : onnx) (output_names : option (list string))
         (x_train : option onnx) (dtype : option np_dtype)
         (optim : option string),
    convert_kernel k X output_names x_train dtype optim None
      = Raise RuntimeError
    /\ convert_kernel_diag k X output_names dtype optim None
      = Raise RuntimeError.
Proof. intros k; destruct k; intros; split; reflexivity. Qed.

(** ** The diagonal dispatcher ignores [optim] *)

(** C9: [convert_kernel_diag] returns the same result (the same graph, or
    the same exception) for any two values of [optim]. *)
Theorem convert_kernel_diag_optim_irrelevant :
  forall (k : kernel) (X : onnx) (output_names : option (list string))
         (dtype : option np_dtype) (optim1 optim2 : option string)
         (op_version : option nat),
    convert_kernel_diag k X output_names dtype optim1 op_version
    = convert_kernel_diag k X output_names dtype optim2 op_version.
Proof.
  induction k; intros X names dtype o1 o2 [opv|]; simpl; try reflexivity.
  - rewrite (IHk1 X None dtype o1 o2 (Some opv)).
    rewrite (IHk2 X None dtype o1 o2 (Some opv)). reflexivity.
  - rewrite (IHk1 X None dtype o1 o2 (Some opv)).
    rewrite (IHk2 X None dtype o1 o2 (Some opv)). reflexivity.
Qed.

(** ** The zero builder *)

Lemma Z_of_nat_leb (n : nat) : (0 <=? Z.of_nat n)%Z = true.
Proof. apply Z.leb_le. apply Nat2Z.is_nonneg. Qed.



(** The graph of [_zero_vector_of_size] and its value on a matrix. *)
Lemma zero_vector_eval (rho : env) (X : onnx) (r c : nat) (x : nat -> nat -> R)
    (output_names : option (list string)) (axis : nat) (kd : bool)
    (dtype : option np_dtype) (opv : nat) :
  eval rho X = Some (TMat r c x) ->
  exists z,
    _zero_vector_of_size X output_names axis (Some kd) dtype (Some opv) = Ok z
    /\ eval rho z =
       Some (match axis =? 0, kd with
             | true, true => TMat r 1 (fun _ _ => cst_denote (CQ 0))
             | true, false => TVec r (fun _ => cst_denote (CQ 0))
             | false, true => TMat 1 c (fun _ _ => cst_denote (CQ 0))
             | false, false => TVec c (fun _ => cst_denote (CQ 0))
             end).
Proof.
  intros HX. unfold _zero_vector_of_size.
  eexists. split; [reflexivity|].
  destruct (axis =? 0), kd; cbn [eval OnnxConstantOfShape OnnxConcat
    OnnxGather OnnxShape np_array1]; rewrite HX; simpl;
    rewrite ?Pos2Nat.inj_1; simpl;
    rewrite ?Z_of_nat_leb; simpl; rewrite ?Nat2Z.id; reflexivity.
Qed.

(** C4, as the code has it: on an input with [r] rows and [c] columns the
    zero builder returns a graph whose value is all zeros; with [keepdims]
    set its shape is [[r; 1]] for [axis = 0] and [[1; c]] for any other
    axis (the unit dimension leads), and with [keepdims] unset it is the
    flat vector of length [r], respectively [c]. *)
Theorem zero_vector_of_size_shape :
  forall (rho : env) (X : onnx) (r c : nat) (x : nat -> nat -> R)
         (output_names : option (list string)) (axis : nat) (keepdims : bool)
         (dtype : option np_dtype) (opv : nat),
    eval rho X = Some (TMat r c x) ->
    exists z t,
      _zero_vector_of_size X output_names axis (Some keepdims) dtype (Some opv)
        = Ok z
      /\ eval rho z = Some t
      /\ is_zeros t (zeros_shape r c axis keepdims).
Proof.
  intros rho X r c x names axis kd dtype opv HX.
  destruct (zero_vector_eval rho X r c x names axis kd dtype opv HX)
    as [z [Hz Hev]].
  exists z. eexists. split; [exact Hz|]. split; [exact Hev|].
  unfold zeros_shape.
  destruct (axis =? 0), kd; simpl; repeat split;
    intros; apply RMicromega.Q2R_0.
Qed.

Lemma zero_vector_of_size_shape_witness :
  exists z t,
    _zero_vector_of_size (Input "X") None 1 (Some true) (Some float32) (Some 18)
      = Ok z
    /\ eval rho_2x3 z = Some t
    /\ is_zeros t [1; 3].
Proof.
  apply (zero_vector_of_size_shape rho_2x3 (Input "X") 2 3
           (fun i j => INR (i + j)) None 1 true (Some float32) 18).
  reflexivity.
Defined.

(** C4 as stated fails for [axis = 1]: with [keepdims] set, the zero tensor
    built from a 2 x 3 input has shape [[1; 3]], not [[3; 1]]. *)
Lemma zero_vector_axis1_leading_dim :
  exists z m,
    _zero_vector_of_size (Input "X") None 1 (Some true) (Some float32) (Some 18)
      = Ok z
    /\ eval rho_2x3 z = Some (TMat 1 3 m)
    /\ forall m', eval rho_2x3 z <> Some (TMat 3 1 m').
Proof.
  eexists. eexists. split; [reflexivity|]. split; [reflexivity|].
  intros m' H. cbn in H. discriminate H.
Qed.

(** ** Broadcasting *)

Lemma bdim_refl (n : nat) : bdim n n = Some n.
Proof. unfold bdim. now rewrite Nat.eqb_refl. Qed.

Lemma bdim_1_r (n : nat) : bdim n 1 = Some n.
Proof.
  unfold bdim. destruct (n =? 1) eqn:E; [reflexivity|]. reflexivity.
Qed.

Lemma bidx_lt (d i : nat) : i < d -> bidx d i = i.
Proof.
  unfold bidx. destruct (d =? 1) eqn:E; [|reflexivity].
  apply Nat.eqb_eq in E. lia.
Qed.


(** ** Matern smoothness values without a formula *)

Lemma scaled_distance_recognized (is_rbf : bool) (length_scale : param)
    (X : onnx) (x_train : option onnx) (dtype : option np_dtype)
    (optim : option string) (opv : nat) :
  x_train = None \/ recognized_optim optim = true ->
  exists d, scaled_distance is_rbf length_scale X x_train dtype optim opv = Ok d.
Proof.
  intros H. unfold scaled_distance.
  destruct x_train as [xt|]; [|eauto].
  destruct H as [H|H]; [discriminate H|].
  destruct optim as [o|]; [|eauto].
  simpl in H. rewrite H. eauto.
Qed.

Lemma matern_formula_not_implemented (nu : pyfloat) (dist : onnx)
    (output_names : option (list string)) (dtype : option np_dtype) (opv : nat) :
  nu_implemented nu = false ->
  matern_formula nu dist output_names dtype opv = Raise RuntimeError.
Proof.
  unfold nu_implemented, matern_formula. intros H.
  apply orb_false_elim in H as [H H4].
  apply orb_false_elim in H as [H H3].
  apply orb_false_elim in H as [H1 H2].
  now rewrite H1, H2, H3, H4.
Qed.

(** C10: for a Matern kernel whose [nu] is none of 0.5, 1.5, 2.5 and inf
    (with an operation-set version, and a recognized [optim] when a training
    set is given), [convert_kernel] raises the RuntimeError of line 411, while
    [convert_kernel_diag] returns a graph, whose value on an input with [n]
    rows is the vector of [n] ones. *)
Theorem matern_other_nu_diag_accepts :
  forall (length_scale : param) (nu : pyfloat) (X : onnx)
         (output_names : option (list string)) (x_train : option onnx)
         (dtype : option np_dtype) (optim : option string) (opv : nat),
    nu_implemented nu = false ->
    x_train = None \/ recognized_optim optim = true ->
    convert_kernel (Matern length_scale nu) X output_names x_train dtype optim
      (Some opv) = Raise RuntimeError
    /\ exists gd,
         convert_kernel_diag (Matern length_scale nu) X output_names dtype
           optim (Some opv) = Ok gd
         /\ forall (rho : env) (n f : nat) (x : nat -> nat -> R),
              is_float_dtype dtype = true ->
              eval rho X = Some (TMat n f x) ->
              exists v, eval rho gd = Some (TVec n v)
                        /\ forall i, v i = 1%R.
Proof.
  intros ls nu X names xt dtype optim opv Hnu Hopt. split.
  - cbn [convert_kernel].
    destruct (scaled_distance_recognized false ls X xt dtype optim opv Hopt)
      as [d Hd].
    rewrite Hd. cbn [bind].
    now apply matern_formula_not_implemented.
  - cbn [convert_kernel_diag].
    destruct (_zero_vector_of_size X None 0 (Some false) dtype (Some opv))
      as [z|e] eqn:Hz; [|discriminate Hz].
    cbn [bind isinstance_RBF].
    eexists. split; [reflexivity|].
    intros rho n f x Hdt HX.
    destruct (zero_vector_eval rho X n f x None 0 false dtype opv HX)
      as [z' [Hz' Hev]].
    rewrite Hz in Hz'. inversion Hz'; subst z'.
    unfold OnnxAdd. cbn [eval]. rewrite Hev. cbn [Nat.eqb].
    unfold np_array1. cbn [eval]. unfold eval_NpArray.
    destruct dtype as [[]|]; try discriminate Hdt;
      cbn; rewrite bdim_1_r; eexists; (split; [reflexivity|]);
      intros i; cbn; rewrite RMicromega.Q2R_0, RMicromega.Q2R_1; lra.
Qed.

Lemma matern_other_nu_diag_accepts_witness :
  convert_kernel (Matern (PNum 1) (Fin (7 # 2))) (Input "X") None None
    (Some float32) None (Some 18) = Raise RuntimeError
  /\ exists gd,
       convert_kernel_diag (Matern (PNum 1) (Fin (7 # 2))) (Input "X") None
         (Some float32) None (Some 18) = Ok gd
       /\ forall (rho : env) (n f : nat) (x : nat -> nat -> R),
            is_float_dtype (Some float32) = true ->
            eval rho (Input "X") = Some (TMat n f x) ->
            exists v, eval rho gd = Some (TVec n v) /\ forall i, v i = 1%R.
Proof.
  apply (matern_other_nu_diag_accepts (PNum 1) (Fin (7 # 2)) (Input "X") None
           None (Some float32) None 18); [reflexivity | right; reflexivity].
Defined.

(** ** Where [optim] is validated *)

Lemma select_cdist_unrecognized (X Y : onnx) (metric : string)
    (dtype : option np_dtype) (optim : option string) (opv : nat) :
  recognized_optim optim = false ->
  select_cdist X Y metric dtype optim opv = Raise ValueError.
Proof.
  destruct optim as [o|]; simpl; [|discriminate].
  intros H. now rewrite H.
Qed.

Lemma optim_unused (k : kernel) :
  forall (X : onnx) (output_names : option (list string))
         (x_train : option onnx) (dtype : option np_dtype)
         (optim : option string) (opv : nat),
    consults_optim k x_train = false ->
    convert_kernel k X output_names x_train dtype optim (Some opv)
    = convert_kernel k X output_names x_train dtype None (Some opv).
Proof.
  induction k; intros X names xt dtype optim opv H; simpl in H;
    try reflexivity; try discriminate H.
  - apply orb_false_elim in H as [H1 H2]. cbn [convert_kernel].
    now rewrite (IHk1 X None xt dtype optim opv H1),
                (IHk2 X None xt dtype optim opv H2).
  - apply orb_false_elim in H as [H1 H2]. cbn [convert_kernel].
    now rewrite (IHk1 X None xt dtype optim opv H1),
                (IHk2 X None xt dtype optim opv H2).
  - destruct xt; [discriminate H|]. reflexivity.
  - destruct xt; [discriminate H|]. reflexivity.
  - cbn [convert_kernel]. now rewrite H.
Qed.

Lemma optim_rejected (k : kernel) :
  forall (X : onnx) (output_names : option (list string))
         (x_train : option onnx) (dtype : option np_dtype)
         (optim : option string) (opv : nat),
    recognized_optim optim = false ->
    consults_optim k x_train = true ->
    succeeds (convert_kernel k X output_names x_train dtype optim (Some opv))
    = false.
Proof.
  induction k; intros X names xt dtype optim opv Ho H; simpl in H;
    try discriminate H.
  - cbn [convert_kernel].
    destruct (convert_kernel k1 X None xt dtype optim (Some opv)) as [a|e]
      eqn:E1; [|reflexivity].
    cbn [bind].
    destruct (consults_optim k1 xt) eqn:C1.
    + pose proof (IHk1 X None xt dtype optim opv Ho C1) as F.
      rewrite E1 in F. discriminate F.
    + simpl in H.
      pose proof (IHk2 X None xt dtype optim opv Ho H) as F.
      destruct (convert_kernel k2 X None xt dtype optim (Some opv));
        [discriminate F | reflexivity].
  - cbn [convert_kernel].
    destruct (convert_kernel k1 X None xt dtype optim (Some opv)) as [a|e]
      eqn:E1; [|reflexivity].
    cbn [bind].
    destruct (consults_optim k1 xt) eqn:C1.
    + pose proof (IHk1 X None xt dtype optim opv Ho C1) as F.
      rewrite E1 in F. discriminate F.
    + simpl in H.
      pose proof (IHk2 X None xt dtype optim opv Ho H) as F.
      destruct (convert_kernel k2 X None xt dtype optim (Some opv));
        [discriminate F | reflexivity].
  - destruct xt as [xt|]; [|discriminate H].
    destruct optim as [o|]; [|discriminate Ho]. simpl in Ho.
    cbn. now rewrite Ho.
  - destruct xt as [xt|]; [|discriminate H].
    destruct optim as [o|]; [|discriminate Ho]. simpl in Ho.
    cbn. now rewrite Ho.
  - cbn [convert_kernel].
    destruct xt; unfold _convert_rational_quadratic;
      now rewrite select_cdist_unrecognized.
  - cbn [convert_kernel]. rewrite H. cbn [negb].
    unfold _convert_exp_sine_squared.
    now rewrite select_cdist_unrecognized.
Qed.

(** C5, as the code has it: an unrecognized [optim] is rejected only where
    a distance strategy is selected.  With a training set, RBF and Matern
    raise ValueError; ExpSineSquared with a scalar length scale and
    RationalQuadratic raise it with or without one; a Sum or Product whose
    compilation reaches such a kernel returns no graph.  When no such kernel
    is reached (Constant, DotProduct, PairwiseKernel and WhiteKernel, and RBF
    and Matern without a training set), [optim] is not validated: the result
    is the one for [optim=None]. *)
Theorem optim_validated_where_consulted :
  forall (k : kernel) (X : onnx) (output_names : option (list string))
         (x_train : option onnx) (dtype : option np_dtype)
         (optim : option string) (opv : nat),
    recognized_optim optim = false ->
    (consults_optim k x_train = false ->
       convert_kernel k X output_names x_train dtype optim (Some opv)
       = convert_kernel k X output_names x_train dtype None (Some opv))
    /\ (consults_optim k x_train = true ->
          succeeds
            (convert_kernel k X output_names x_train dtype optim (Some opv))
          = false)
    /\ (forall length_scale nu xt,
          convert_kernel (RBF length_scale) X output_names (Some xt) dtype
            optim (Some opv) = Raise ValueError
          /\ convert_kernel (Matern length_scale nu) X output_names (Some xt)
               dtype optim (Some opv) = Raise ValueError)
    /\ (forall length_scale alpha,
          convert_kernel (RationalQuadratic length_scale alpha) X output_names
            x_train dtype optim (Some opv) = Raise ValueError)
    /\ (forall length_scale periodicity,
          convert_kernel (ExpSineSquared (PNum length_scale) periodicity) X
            output_names x_train dtype optim (Some opv) = Raise ValueError).
Proof.
  intros k X names xt dtype optim opv Ho.
  split; [intros H; now apply optim_unused|].
  split; [intros H; now apply optim_rejected|].
  destruct optim as [o|]; [|discriminate Ho]. simpl in Ho.
  split; [|split].
  - intros ls nu xt'. split; cbn; now rewrite Ho.
  - intros ls alpha. cbn [convert_kernel].
    destruct xt; unfold _convert_rational_quadratic, select_cdist;
      now rewrite Ho.
  - intros ls p. cbn [convert_kernel is_float_or_int negb].
    unfold _convert_exp_sine_squared, select_cdist. now rewrite Ho.
Qed.

Lemma optim_validated_where_consulted_witness :
  (consults_optim (ConstantKernel 1) None = false ->
     convert_kernel (ConstantKernel 1) (Input "X") None None (Some float32)
       (Some "fused") (Some 18)
     = convert_kernel (ConstantKernel 1) (Input "X") None None (Some float32)
         None (Some 18))
  /\ (consults_optim (ConstantKernel 1) None = true ->
        succeeds
          (convert_kernel (ConstantKernel 1) (Input "X") None None
             (Some float32) (Some "fused") (Some 18)) = false)
  /\ (forall length_scale nu xt,
        convert_kernel (RBF length_scale) (Input "X") None (Some xt)
          (Some float32) (Some "fused") (Some 18) = Raise ValueError
        /\ convert_kernel (Matern length_scale nu) (Input "X") None (Some xt)
             (Some float32) (Some "fused") (Some 18) = Raise ValueError)
  /\ (forall length_scale alpha,
        convert_kernel (RationalQuadratic length_scale alpha) (Input "X") None
          None (Some float32) (Some "fused") (Some 18) = Raise ValueError)
  /\ (forall length_scale periodicity,
        convert_kernel (ExpSineSquared (PNum length_scale) periodicity)
          (Input "X") None None (Some float32) (Some "fused") (Some 18)
        = Raise ValueError).
Proof.
  apply (optim_validated_where_consulted (ConstantKernel 1) (Input "X") None
           None (Some float32) (Some "fused") 18).
  reflexivity.
Defined.

(** C5 as stated fails: with no training set, an RBF kernel compiles under
    the unknown mode ["fused"], and so does a constant kernel. *)
Lemma unknown_optim_accepted :
  recognized_optim (Some "fused") = false
  /\ succeeds (convert_kernel (RBF (PNum 1)) (Input "X") None None
                 (Some float32) (Some "fused") (Some 18)) = true
  /\ succeeds (convert_kernel (ConstantKernel 1) (Input "X") None
                 (Some (Input "Y")) (Some float32) (Some "fused") (Some 18))
     = true.
Proof. repeat split. Qed.

(** ** The dimension check of DotProduct *)

(** C6, as the code has it: for a DotProduct kernel with a scalar [sigma_0]
    the only dimension check is on the training set.  A training array that
    is not 2-dimensional makes [convert_kernel] raise NotImplementedError
    and no graph is built; [X] is never inspected: without a training set,
    or with a 2-dimensional one, a graph is returned for every [X]. *)
Theorem dot_product_checks_train_set_only :
  forall (sigma_0 : Q) (X : onnx) (output_names : option (list string))
         (dtype : option np_dtype) (optim : option string) (opv : nat)
         (a : ndarray),
    is_float_dtype dtype = true ->
    (List.length (nd_shape a) <> 2 ->
       convert_kernel (DotProduct (PNum sigma_0)) X output_names
         (Some (Array a)) dtype optim (Some opv) = Raise NotImplementedError)
    /\ (List.length (nd_shape a) = 2 ->
          succeeds (convert_kernel (DotProduct (PNum sigma_0)) X output_names
                      (Some (Array a)) dtype optim (Some opv)) = true)
    /\ succeeds (convert_kernel (DotProduct (PNum sigma_0)) X output_names
                   None dtype optim (Some opv)) = true.
Proof.
  intros s X names dtype optim opv a Hdt.
  cbn [convert_kernel is_float_or_int negb shape_attr as_ndarray bind].
  unfold _convert_dot_product.
  rewrite (py_make_float_array_Ok _ _ Hdt). cbn [bind succeeds].
  repeat split.
  - intros H. apply Nat.eqb_neq in H. now rewrite H.
  - intros H. apply Nat.eqb_eq in H. now rewrite H.
Qed.

Lemma dot_product_checks_train_set_only_witness :
  (List.length [3] <> 2 ->
     convert_kernel (DotProduct (PNum 1)) (Input "X") None
       (Some (Array (mk_ndarray [3] [1; 2; 3]%Q))) (Some float32) None
       (Some 18) = Raise NotImplementedError)
  /\ (List.length [3] = 2 ->
        succeeds (convert_kernel (DotProduct (PNum 1)) (Input "X") None
                    (Some (Array (mk_ndarray [3] [1; 2; 3]%Q)))
                    (Some float32) None (Some 18)) = true)
  /\ succeeds (convert_kernel (DotProduct (PNum 1)) (Input "X") None None
                 (Some float32) None (Some 18)) = true.
Proof.
  apply (dot_product_checks_train_set_only 1 (Input "X") None (Some float32)
           None 18 (mk_ndarray [3] [1; 2; 3]%Q)).
  reflexivity.
Defined.

(** C6 as stated fails: a 1-dimensional array [X] (with no training set), or
    a 3-dimensional one against a 2-dimensional training set, is compiled
    into a dot-product graph without any error. *)
Lemma dot_product_accepts_non_2d_X :
  List.length (nd_shape (mk_ndarray [3] [1; 2; 3]%Q)) <> 2
  /\ succeeds (convert_kernel (DotProduct (PNum 1))
                 (Array (mk_ndarray [3] [1; 2; 3]%Q)) None None
                 (Some float32) None (Some 18)) = true
  /\ List.length (nd_shape (mk_ndarray [1; 1; 2] [1; 2]%Q)) <> 2
  /\ succeeds (convert_kernel (DotProduct (PNum 1))
                 (Array (mk_ndarray [1; 1; 2] [1; 2]%Q)) None
                 (Some (Array (mk_ndarray [1; 2] [3; 4]%Q)))
                 (Some float32) None (Some 18)) = true.
Proof. repeat split; simpl; lia. Qed.

(** ** The distance of Matern under the fused strategy *)

(** Whatever the kernel, the fused branch of lines 343-349 asks CDist for
    the squared distance, while the unfused branch and the self-pairwise form
    ask for the Euclidean distance when the kernel is not RBF. *)
Lemma matern_fused_metric :
  forall (length_scale : param) (X x_train : onnx) (dtype : option np_dtype)
         (opv : nat),
    let const := length_scale_const length_scale dtype in
    scaled_distance false length_scale X (Some x_train) dtype (Some "cdist")
      opv
    = Ok (OnnxCDist (OnnxDiv X const opv) (OnnxDiv x_train const opv)
            "sqeuclidean" opv)
    /\ scaled_distance false length_scale X (Some x_train) dtype None opv
       = Ok (onnx_cdist (OnnxDiv X const opv) (OnnxDiv x_train const opv)
               "euclidean" dtype opv)
    /\ scaled_distance false length_scale X None dtype (Some "cdist") opv
       = Ok (onnx_squareform_pdist (OnnxDiv X const opv) "euclidean" dtype
               opv).
Proof. intros. repeat split. Qed.

(** C2 on the code: Matern(length_scale=1, nu=0.5) between the points 0 and
    2, at distance 2.  The unfused strategy evaluates to exp(-2); the fused
    strategy builds a CDist node with metric "sqeuclidean" and evaluates to
    exp(-4). *)
Theorem matern_fused_value_differs :
  exists g_fused g_unfused m_fused m_unfused,
    convert_kernel (Matern (PNum 1) (Fin (1 # 2))) (Array point_0) None
      (Some (Array point_2)) (Some float32) (Some "cdist") (Some 18)
      = Ok g_fused
    /\ convert_kernel (Matern (PNum 1) (Fin (1 # 2))) (Array point_0) None
         (Some (Array point_2)) (Some float32) None (Some 18) = Ok g_unfused
    /\ eval (fun _ => None) g_fused = Some (TMat 1 1 m_fused)
    /\ eval (fun _ => None) g_unfused = Some (TMat 1 1 m_unfused)
    /\ m_fused 0 0 = exp (- 4)
    /\ m_unfused 0 0 = exp (- 2)
    /\ m_fused 0 0 <> m_unfused 0 0.
Proof.
  do 4 eexists.
  split; [reflexivity|]. split; [reflexivity|].
  split; [reflexivity|]. split; [reflexivity|].
  assert (E0 : Q2R 0 = 0%R) by apply RMicromega.Q2R_0.
  assert (E1 : Q2R 1 = 1%R) by apply RMicromega.Q2R_1.
  assert (E2 : Q2R 2 = 2%R) by (unfold Q2R; simpl; lra).
  assert (F : exp (- 4) <> exp (- 2)).
  { intros H. apply exp_inv in H. lra. }
  assert (A : (0 + (0 / 1 - 2 / 1) * (0 / 1 - 2 / 1) = 4)%R) by lra.
  cbn. unfold sqdist, nd_entry. cbn. rewrite E0, E1, E2, A.
  replace (sqrt 4) with 2%R.
  - repeat split; auto.
  - symmetry. replace 4%R with (2 * 2)%R by lra. apply sqrt_square. lra.
Qed.

(** ** One precision per compilation *)







(** C3 on the code: the graph of Matern(nu=2.5) compiled in float32 holds
    the constant 1 of line 384 with Python's [type] as its dtype, next to
    the constants sqrt(5) and 3 in float32; the precision is not uniform. *)
Theorem matern_25_mixed_precision :
  forall (dist : onnx) (output_names : option (list string)) (opv : nat),
    matern_formula (Fin (5 # 2)) dist output_names (Some float32) opv
    = Ok (OnnxMul
            (OnnxAdd
               (OnnxAdd
                  (OnnxMul dist (np_array1 (CRoot 5) (Some float32)) None opv)
                  (np_array1 (CQ 1) (Some py_type)) None opv)
               (OnnxDiv
                  (OnnxMul
                     (OnnxMul dist (np_array1 (CRoot 5) (Some float32)) None
                        opv)
                     (OnnxMul dist (np_array1 (CRoot 5) (Some float32)) None
                        opv)
                     None opv)
                  (np_array1 (CQ 3) (Some float32)) opv)
               None opv)
            (OnnxExp
               (OnnxNeg
                  (OnnxMul dist (np_array1 (CRoot 5) (Some float32)) None opv)
                  opv)
               None opv)
            output_names opv)
    /\ exists g,
         convert_kernel (Matern (PNum 1) (Fin (5 # 2))) (Input "X") None None
           (Some float32) None (Some 18) = Ok g
         /\ precision_in (Some float32) g = false.
Proof.
  intros. split; [reflexivity|].
  eexists. split; reflexivity.
Qed.

(** ** Output names do not change the value *)

Lemma eval_with_output_names (rho : env) (names : option (list string))
    (g : onnx) :
  eval rho (with_output_names names g) = eval rho g.
Proof. destruct g; reflexivity. Qed.

Ltac split_results :=
  repeat match goal with
         | |- context [bind ?r _] =>
           lazymatch r with
           | context [bind _ _] => fail
           | _ => destruct r; cbn [bind with_output_names]
           end
         | |- context [if ?b then _ else _] =>
           destruct b; cbn [bind with_output_names]
         | |- context [match ?o with Some _ => _ | None => _ end] =>
           is_var o; destruct o; cbn [bind with_output_names]
         end.

Lemma convert_kernel_names (k : kernel) (X : onnx)
    (names : option (list string)) (x_train : option onnx)
    (dtype : option np_dtype) (optim : option string)
    (op_version : option nat) :
  convert_kernel k X names x_train dtype optim op_version
  = match convert_kernel k X None x_train dtype optim op_version with
    | Ok g => Ok (with_output_names names g)
    | Raise e => Raise e
    end.
Proof.
  destruct op_version as [opv|]; [|destruct k; reflexivity].
  destruct k; cbn [convert_kernel];
    unfold matern_formula, _convert_exp_sine_squared, _convert_dot_product,
      _convert_rational_quadratic, _convert_pairwise_kernel;
    split_results; reflexivity.
Qed.

Lemma convert_kernel_diag_names (k : kernel) (X : onnx)
    (names : option (list string)) (dtype : option np_dtype)
    (optim : option string) (op_version : option nat) :
  convert_kernel_diag k X names dtype optim op_version
  = match convert_kernel_diag k X None dtype optim op_version with
    | Ok g => Ok (with_output_names names g)
    | Raise e => Raise e
    end.
Proof.
  destruct op_version as [opv|]; [|destruct k; reflexivity].
  destruct k; cbn [convert_kernel_diag isinstance_RBF];
    split_results; reflexivity.
Qed.

(** ** Sum and Product *)

Lemma broadcast2_mat_mat (op : R -> R -> R) (n m : nat)
    (a b : nat -> nat -> R) :
  broadcast2 op (TMat n m a) (TMat n m b)
  = Some (TMat n m (fun i j => op (a (bidx n i) (bidx m j))
                                  (b (bidx n i) (bidx m j)))).
Proof. unfold broadcast2. now rewrite !bdim_refl. Qed.

Lemma broadcast2_vec_vec (op : R -> R -> R) (n : nat) (a b : nat -> R) :
  broadcast2 op (TVec n a) (TVec n b)
  = Some (TVec n (fun i => op (a (bidx n i)) (b (bidx n i)))).
Proof. unfold broadcast2. now rewrite bdim_refl. Qed.

Lemma broadcast2_mat_scalar (op : R -> R -> R) (r c : nat)
    (a : nat -> nat -> R) (v : nat -> R) :
  broadcast2 op (TMat r c a) (TVec 1 v)
  = Some (TMat r c (fun i j => op (a i (bidx c j)) (v 0))).
Proof. unfold broadcast2. now rewrite bdim_1_r. Qed.


(** C8: when the graphs compiled for [k1] and [k2] on their own (under any
    output names, with the same [x_train], [dtype], [optim] and
    [op_version]) evaluate to two n x m matrices, the graphs compiled for
    [Sum k1 k2] and [Product k1 k2] evaluate to their entrywise sum and
    product; likewise for the vectors of [convert_kernel_diag]. *)
Theorem sum_product_elementwise :
  forall (k1 k2 : kernel) (X : onnx)
         (names names1 names2 : option (list string)) (x_train : option onnx)
         (dtype : option np_dtype) (optim : option string) (opv : nat)
         (rho : env),
    (forall g1 g2 n m a b,
       convert_kernel k1 X names1 x_train dtype optim (Some opv) = Ok g1 ->
       convert_kernel k2 X names2 x_train dtype optim (Some opv) = Ok g2 ->
       eval rho g1 = Some (TMat n m a) ->
       eval rho g2 = Some (TMat n m b) ->
       exists gs gp s p,
         convert_kernel (Sum k1 k2) X names x_train dtype optim (Some opv)
           = Ok gs
         /\ convert_kernel (Product k1 k2) X names x_train dtype optim
              (Some opv) = Ok gp
         /\ eval rho gs = Some (TMat n m s)
         /\ eval rho gp = Some (TMat n m p)
         /\ forall i j, i < n -> j < m ->
              s i j = (a i j + b i j)%R /\ p i j = (a i j * b i j)%R)
    /\ (forall g1 g2 n a b,
          convert_kernel_diag k1 X names1 dtype optim (Some opv) = Ok g1 ->
          convert_kernel_diag k2 X names2 dtype optim (Some opv) = Ok g2 ->
          eval rho g1 = Some (TVec n a) ->
          eval rho g2 = Some (TVec n b) ->
          exists gs gp s p,
            convert_kernel_diag (Sum k1 k2) X names dtype optim (Some opv)
              = Ok gs
            /\ convert_kernel_diag (Product k1 k2) X names dtype optim
                 (Some opv) = Ok gp
            /\ eval rho gs = Some (TVec n s)
            /\ eval rho gp = Some (TVec n p)
            /\ forall i, i < n ->
                 s i = (a i + b i)%R /\ p i = (a i * b i)%R).
Proof.
  intros k1 k2 X names names1 names2 xt dtype optim opv rho. split.
  - intros g1 g2 n m a b H1 H2 E1 E2.
    rewrite convert_kernel_names in H1, H2.
    destruct (convert_kernel k1 X None xt dtype optim (Some opv)) as [h1|]
      eqn:C1; [|discriminate H1].
    destruct (convert_kernel k2 X None xt dtype optim (Some opv)) as [h2|]
      eqn:C2; [|discriminate H2].
    inversion H1; subst g1. inversion H2; subst g2.
    rewrite eval_with_output_names in E1, E2.
    cbn [convert_kernel]. rewrite C1, C2. cbn [bind].
    do 4 eexists. split; [reflexivity|]. split; [reflexivity|].
    unfold OnnxAdd, OnnxMul. cbn [eval eval_binop]. rewrite E1, E2.
    rewrite !broadcast2_mat_mat.
    split; [reflexivity|]. split; [reflexivity|].
    intros i j Hi Hj. cbn beta. now rewrite !bidx_lt.
  - intros g1 g2 n a b H1 H2 E1 E2.
    rewrite convert_kernel_diag_names in H1, H2.
    destruct (convert_kernel_diag k1 X None dtype optim (Some opv)) as [h1|]
      eqn:C1; [|discriminate H1].
    destruct (convert_kernel_diag k2 X None dtype optim (Some opv)) as [h2|]
      eqn:C2; [|discriminate H2].
    inversion H1; subst g1. inversion H2; subst g2.
    rewrite eval_with_output_names in E1, E2.
    cbn [convert_kernel_diag]. rewrite C1, C2. cbn [bind].
    do 4 eexists. split; [reflexivity|]. split; [reflexivity|].
    unfold OnnxAdd, OnnxMul. cbn [eval eval_binop]. rewrite E1, E2.
    rewrite !broadcast2_vec_vec.
    split; [reflexivity|]. split; [reflexivity|].
    intros i Hi. cbn beta. now rewrite !bidx_lt.
Qed.

Lemma sum_product_elementwise_witness :
  exists g1 g2 a b,
    convert_kernel (ConstantKernel 2) (Array two_points) (Some ["A"]) None
      (Some float32) None (Some 18) = Ok g1
    /\ convert_kernel (RBF (PNum 1)) (Array two_points) (Some ["B"]) None
         (Some float32) None (Some 18) = Ok g2
    /\ eval (fun _ => None) g1 = Some (TMat 2 2 a)
    /\ eval (fun _ => None) g2 = Some (TMat 2 2 b)
    /\ exists gs gp s p,
         convert_kernel (Sum (ConstantKernel 2) (RBF (PNum 1)))
           (Array two_points) (Some ["Y"]) None (Some float32) None (Some 18)
         = Ok gs
         /\ convert_kernel (Product (ConstantKernel 2) (RBF (PNum 1)))
              (Array two_points) (Some ["Y"]) None (Some float32) None
              (Some 18) = Ok gp
         /\ eval (fun _ => None) gs = Some (TMat 2 2 s)
         /\ eval (fun _ => None) gp = Some (TMat 2 2 p)
         /\ forall i j, i < 2 -> j < 2 ->
              s i j = (a i j + b i j)%R /\ p i j = (a i j * b i j)%R.
Proof.
  do 4 eexists.
  split; [reflexivity|]. split; [reflexivity|].
  split; [reflexivity|]. split; [reflexivity|].
  destruct (sum_product_elementwise (ConstantKernel 2) (RBF (PNum 1))
              (Array two_points) (Some ["Y"]) (Some ["A"]) (Some ["B"]) None
              (Some float32) None 18 (fun _ => None)) as [Hfull _].
  exact (Hfull _ _ 2 2 _ _ eq_refl eq_refl eq_refl eq_refl).
Defined.

(** ** The diagonal of the compiled matrix *)

Lemma eval_np_array1 (rho : env) (c : cst) (dtype : option np_dtype) :
  is_float_dtype dtype = true ->
  eval rho (np_array1 c dtype)
  = Some (TVec 1 (fun i => cst_denote (nth i [c] (CQ 0)))).
Proof.
  intros H. destruct dtype as [[]|]; try discriminate H; reflexivity.
Qed.









Lemma float_not_int64 (dtype : option np_dtype) :
  is_float_dtype dtype = true -> dtype_eqb dtype (Some int64) = false.
Proof. destruct dtype as [[]|]; intros H; try discriminate H; reflexivity. Qed.

Lemma float_not_py_type (dtype : option np_dtype) :
  is_float_dtype dtype = true -> dtype_eqb dtype (Some py_type) = false.
Proof. destruct dtype as [[]|]; intros H; try discriminate H; reflexivity. Qed.

Lemma eval_NpArray_scalar (c : cst) (dtype : option np_dtype) :
  is_float_dtype dtype = true ->
  eval_NpArray dtype [1] [c]
  = Some (TVec 1 (fun i => cst_denote (nth i [c] (CQ 0)))).
Proof.
  intros H. unfold eval_NpArray.
  now rewrite (float_not_int64 _ H), (float_not_py_type _ H).
Qed.

Ltac unfold_ops :=
  unfold OnnxMul, OnnxMatMul, OnnxAdd, OnnxTranspose, OnnxDiv, OnnxExp,
    OnnxNeg, OnnxSin, OnnxPow, OnnxSqueezeApi11, OnnxIdentity,
    OnnxReduceSumSquareApi18, np_array1.

(** Evaluates a formula graph whose distance operand [d] has a known value,
    all the other operands being one-entry constants. *)
Ltac eval_formula Hd Hdt :=
  unfold_ops;
  repeat (cbn [eval eval_binop eval_unop tmap];
          rewrite ?Hd, ?(eval_NpArray_scalar _ _ Hdt),
            ?broadcast2_mat_scalar, ?broadcast2_mat_mat).

Lemma Q2R_2 : Q2R 2 = 2%R.
Proof. unfold Q2R. simpl. lra. Qed.







(** The matrix graph of Matern with [nu = 2.5] has no value, whatever its
    distance operand: it adds the constant of line 384, an array of Python
    objects. *)
Lemma matern_25_has_no_value (rho : env) (d : onnx)
    (names : option (list string)) (dtype : option np_dtype) (opv : nat) :
  exists g,
    matern_formula (Fin (5 # 2)) d names dtype opv = Ok g
    /\ eval rho g = None.
Proof.
  eexists. split; [reflexivity|].
  unfold_ops. cbn [eval].
  change (eval_NpArray (Some py_type) [1] [CQ 1]) with (@None tensor).
  destruct (eval rho d) as [t|]; [|reflexivity].
  destruct (eval_NpArray dtype [1] [CRoot 5]) as [u|]; [|reflexivity].
  destruct (eval_binop OpMul t u); reflexivity.
Qed.



Lemma eval_array_matrix (rho : env) (a : ndarray) (n f : nat)
    (x : nat -> nat -> R) :
  eval rho (Array a) = Some (TMat n f x) ->
  nd_shape a = [n; f] /\ x = nd_entry a f.
Proof.
  cbn [eval]. unfold eval_ndarray.
  destruct (nd_shape a) as [|r [|c [|? ?]]]; intros H; inversion H.
  split; reflexivity.
Qed.







(** ** The scenarios of the specification, evaluated *)

(** RBF(length_scale=1) on the points 0, 1, 2 against themselves: a 3 x 3
    matrix with unit diagonal, exp(-1/2) between neighbours and exp(-2)
    between the end points. *)
Example rbf_on_a_line :
  exists g M,
    convert_kernel (RBF (PNum 1)) (Array line_012) None None (Some float64)
      None (Some 18) = Ok g
    /\ eval (fun _ => None) g = Some (TMat 3 3 M)
    /\ M 0 0 = 1%R /\ M 1 1 = 1%R /\ M 2 2 = 1%R
    /\ M 0 1 = exp (- / 2) /\ M 1 0 = exp (- / 2)
    /\ M 1 2 = exp (- / 2) /\ M 2 1 = exp (- / 2)
    /\ M 0 2 = exp (- 2) /\ M 2 0 = exp (- 2).
Proof.
  do 2 eexists. split; [reflexivity|]. split; [reflexivity|].
  assert (E0 : Q2R 0 = 0%R) by apply RMicromega.Q2R_0.
  assert (E1 : Q2R 1 = 1%R) by apply RMicromega.Q2R_1.
  assert (Eh : Q2R (1 # 2) = (/ 2)%R) by (unfold Q2R; simpl; lra).
  cbn. unfold sqdist, nd_entry. cbn. rewrite E0, E1, Q2R_2, Eh.
  repeat split;
    match goal with
    | |- exp ?a = 1%R => replace a with 0%R by lra; apply exp_0
    | |- exp ?a = exp ?b => f_equal; lra
    end.
Qed.

(** DotProduct(sigma_0=1) between the two unit vectors: the 1 x 1 matrix
    holding 0 + 1. *)
Example dot_product_orthogonal :
  exists g M,
    convert_kernel (DotProduct (PNum 1)) (Array unit_x) None
      (Some (Array unit_y)) (Some float64) None (Some 18) = Ok g
    /\ eval (fun _ => None) g = Some (TMat 1 1 M)
    /\ M 0 0 = 1%R.
Proof.
  do 2 eexists. split; [reflexivity|]. split; [reflexivity|].
  assert (E0 : Q2R 0 = 0%R) by apply RMicromega.Q2R_0.
  assert (E1 : Q2R 1 = 1%R) by apply RMicromega.Q2R_1.
  assert (Es : Q2R (1 ^ 2) = 1%R) by (unfold Q2R; simpl; lra).
  cbn [bidx Nat.eqb nth cst_denote rsum]. rewrite Es.
  unfold nd_entry. cbn [nd_data unit_x unit_y Nat.mul Nat.add nth].
  rewrite E0, E1. lra.
Qed.

(** WhiteKernel(noise_level=1/2) on three points against themselves is
    half the identity; against four other points it is the 3 x 4 zero
    matrix. *)
Example white_kernel_shapes :
  exists g g' M Z,
    convert_kernel (WhiteKernel (1 # 2)) (Array line_012) None None
      (Some float64) None (Some 18) = Ok g
    /\ convert_kernel (WhiteKernel (1 # 2)) (Array line_012) None
         (Some (Array four_points)) (Some float64) None (Some 18) = Ok g'
    /\ eval (fun _ => None) g = Some (TMat 3 3 M)
    /\ eval (fun _ => None) g' = Some (TMat 3 4 Z)
    /\ (forall i j, M i j = if i =? j then (/ 2)%R else 0%R)
    /\ (forall i j, Z i j = 0%R).
Proof.
  do 4 eexists. split; [reflexivity|]. split; [reflexivity|].
  split; [reflexivity|]. split; [reflexivity|].
  assert (E0 : Q2R 0 = 0%R) by apply RMicromega.Q2R_0.
  assert (Eh : Q2R (1 # 2) = (/ 2)%R) by (unfold Q2R; simpl; lra).
  split; intros i j; cbn; rewrite ?E0, ?Eh.
  - change (Pos.to_nat 3) with 3. unfold bidx. cbn [Nat.eqb].
    destruct (i =? j); lra.
  - change (Pos.to_nat 1) with 1. cbn [rsum]. lra.
Qed.

(** ** When the dispatchers raise *)

Lemma py_make_float_array_TypeError (c : hostval) (dtype : option np_dtype) :
  is_float_dtype dtype = false ->
  py_make_float_array c dtype = Raise TypeError.
Proof. intros H. unfold py_make_float_array. now rewrite H. Qed.

Lemma select_cdist_raises (X Y : onnx) (metric : string)
    (dtype : option np_dtype) (optim : option string) (opv : nat) :
  recognized_optim optim = false ->
  select_cdist X Y metric dtype optim opv = Raise ValueError.
Proof.
  unfold select_cdist. destruct optim as [o|]; simpl; [|discriminate].
  intros H. now rewrite H.
Qed.

Lemma dot_product_raises (X Y : onnx) (sigma_0 : param)
    (dtype : option np_dtype) (opv : nat) (names : option (list string)) :
  is_float_dtype dtype = false ->
  _convert_dot_product X Y sigma_0 dtype opv names = Raise TypeError.
Proof.
  intros H. unfold _convert_dot_product.
  now rewrite (py_make_float_array_TypeError _ _ H).
Qed.

Lemma rational_quadratic_raises (X Y : onnx) (length_scale alpha : Q)
    (dtype : option np_dtype) (optim : option string) (opv : nat)
    (names : option (list string)) :
  recognized_optim optim && is_float_dtype dtype = false ->
  exists e,
    _convert_rational_quadratic X Y length_scale alpha dtype optim opv names
    = Raise e.
Proof.
  intros H. unfold _convert_rational_quadratic.
  destruct (recognized_optim optim) eqn:Ho; cbn [andb] in H.
  - destruct (select_cdist X Y "sqeuclidean" dtype optim opv) as [d|e];
      cbn [bind]; [|eauto].
    rewrite (py_make_float_array_TypeError _ _ H). cbn [bind]. eauto.
  - rewrite (select_cdist_raises _ _ _ _ _ _ Ho). cbn [bind]. eauto.
Qed.

Lemma exp_sine_squared_raises (X Y : onnx) (length_scale : param)
    (periodicity : Q) (dtype : option np_dtype) (optim : option string)
    (opv : nat) (names : option (list string)) :
  recognized_optim optim && is_float_dtype dtype = false ->
  exists e,
    _convert_exp_sine_squared X Y length_scale periodicity dtype optim opv
      names = Raise e.
Proof.
  intros H. unfold _convert_exp_sine_squared.
  destruct (recognized_optim optim) eqn:Ho; cbn [andb] in H.
  - destruct (select_cdist X Y "euclidean" dtype optim opv) as [d|e];
      cbn [bind]; [|eauto].
    rewrite (py_make_float_array_TypeError _ _ H). cbn [bind]. eauto.
  - rewrite (select_cdist_raises _ _ _ _ _ _ Ho). cbn [bind]. eauto.
Qed.

Lemma pairwise_kernel_raises (X Y : onnx) (metric : string)
    (dtype : option np_dtype) (opv : nat) (optim : option string)
    (names : option (list string)) :
  String.eqb metric "cosine" && cosine_operand_ok Y = false ->
  exists e,
    _convert_pairwise_kernel X Y metric dtype opv optim names = Raise e.
Proof.
  unfold _convert_pairwise_kernel, cosine_operand_ok.
  destruct (String.eqb metric "cosine"); cbn [andb]; [|eauto].
  destruct (as_ndarray Y) as [a|]; [|discriminate].
  destruct (List.length (nd_shape a) <? 2); cbn [negb bind];
    [eauto|discriminate].
Qed.

Lemma scaled_distance_raises (is_rbf : bool) (length_scale : param)
    (X : onnx) (x_train : option onnx) (dtype : option np_dtype)
    (optim : option string) (opv : nat) :
  match x_train with None => true | Some _ => recognized_optim optim end
  = false ->
  scaled_distance is_rbf length_scale X x_train dtype optim opv
  = Raise ValueError.
Proof.
  unfold scaled_distance. destruct x_train as [xt|]; [|discriminate].
  destruct optim as [o|]; simpl; [|discriminate].
  intros H. now rewrite H.
Qed.

(** X1: given an operation-set version, [convert_kernel] raises as soon as
    one of the conditions collected in [compiles] fails: a leaf is none of
    the ten kernel classes; [optim] is not recognized where a strategy is
    selected; Matern has a [nu] that is not implemented; ExpSineSquared or
    DotProduct has an array parameter; a training set given to DotProduct
    is not a 2-dimensional array; a kernel that goes through
    [py_make_float_array] gets a dtype that is not float; or PairwiseKernel
    has a metric other than cosine, or a second operand that is an array of
    fewer than two dimensions.  So it returns a graph only if they all
    hold; the converse is not stated. *)
Theorem convert_kernel_raises_unless_compiles :
  forall (k : kernel) (X : onnx) (names : option (list string))
         (x_train : option onnx) (dtype : option np_dtype)
         (optim : option string) (opv : nat),
    compiles k X x_train dtype optim = false ->
    exists e,
      convert_kernel k X names x_train dtype optim (Some opv) = Raise e.
Proof.
  induction k; intros X names xt dtype optim opv Hc;
    cbn [compiles] in Hc; cbn [convert_kernel]; try discriminate Hc.
  - destruct (compiles k1 X xt dtype optim) eqn:H1; cbn [andb] in Hc.
    + destruct (IHk2 X None xt dtype optim opv Hc) as [e He]. rewrite He.
      destruct (convert_kernel k1 X None xt dtype optim (Some opv));
        cbn [bind]; eauto.
    + destruct (IHk1 X None xt dtype optim opv H1) as [e He]. rewrite He.
      cbn [bind]. eauto.
  - destruct (compiles k1 X xt dtype optim) eqn:H1; cbn [andb] in Hc.
    + destruct (IHk2 X None xt dtype optim opv Hc) as [e He]. rewrite He.
      destruct (convert_kernel k1 X None xt dtype optim (Some opv));
        cbn [bind]; eauto.
    + destruct (IHk1 X None xt dtype optim opv H1) as [e He]. rewrite He.
      cbn [bind]. eauto.
  - rewrite (scaled_distance_raises _ _ _ _ _ _ _ Hc). cbn [bind]. eauto.
  - apply andb_false_iff in Hc as [Hc|Hc].
    + rewrite (scaled_distance_raises _ _ _ _ _ _ _ Hc). cbn [bind]. eauto.
    + destruct (scaled_distance false length_scale X xt dtype optim opv);
        cbn [bind]; [|eauto].
      rewrite (matern_formula_not_implemented _ _ _ _ _ Hc). eauto.
  - destruct xt; now apply rational_quadratic_raises.
  - destruct (is_float_or_int length_scale); cbn [negb andb] in *; [|eauto].
    now apply exp_sine_squared_raises.
  - destruct (is_float_or_int sigma_0); cbn [negb andb] in *; [|eauto].
    destruct xt as [xt|]; cbn [train_set_is_2d andb] in Hc.
    + unfold shape_attr. destruct (as_ndarray xt) as [a|]; cbn [bind];
        [|eauto].
      destruct (List.length (nd_shape a) =? 2); cbn [negb andb] in *;
        [|eauto].
      rewrite (dot_product_raises _ _ _ _ _ _ Hc). eauto.
    + rewrite (dot_product_raises _ _ _ _ _ _ Hc). eauto.
  - destruct xt; now apply pairwise_kernel_raises.
  - eauto.
Qed.

Lemma convert_kernel_raises_unless_compiles_witness :
  exists e,
    convert_kernel (Sum all_kinds (Matern (PNum 1) (Fin (7 # 2))))
      (Input "X") (Some ["K"]) None (Some float64) (Some "cdist") (Some 18)
    = Raise e.
Proof.
  apply (convert_kernel_raises_unless_compiles
           (Sum all_kinds (Matern (PNum 1) (Fin (7 # 2)))) (Input "X")
           (Some ["K"]) None (Some float64) (Some "cdist") 18).
  reflexivity.
Defined.

(** X2: given an operation-set version, [convert_kernel_diag] raises as
    soon as the expression holds a PairwiseKernel, a WhiteKernel or another
    kernel class, or holds a DotProduct while the dtype is neither float32
    nor float64; neither [X], the output names nor [optim] matter.  So it
    returns a graph only if none of these is the case; the converse is not
    stated. *)
Theorem convert_kernel_diag_raises_unless_compiles_diag :
  forall (k : kernel) (X : onnx) (names : option (list string))
         (dtype : option np_dtype) (optim : option string) (opv : nat),
    compiles_diag k dtype = false ->
    exists e, convert_kernel_diag k X names dtype optim (Some opv) = Raise e.
Proof.
  induction k; intros X names dtype optim opv Hc;
    cbn [compiles_diag] in Hc; cbn [convert_kernel_diag];
    try discriminate Hc; eauto.
  - destruct (compiles_diag k1 dtype) eqn:H1; cbn [andb] in Hc.
    + destruct (IHk2 X None dtype optim opv Hc) as [e He]. rewrite He.
      destruct (convert_kernel_diag k1 X None dtype optim (Some opv));
        cbn [bind]; eauto.
    + destruct (IHk1 X None dtype optim opv H1) as [e He]. rewrite He.
      cbn [bind]. eauto.
  - destruct (compiles_diag k1 dtype) eqn:H1; cbn [andb] in Hc.
    + destruct (IHk2 X None dtype optim opv Hc) as [e He]. rewrite He.
      destruct (convert_kernel_diag k1 X None dtype optim (Some opv));
        cbn [bind]; eauto.
    + destruct (IHk1 X None dtype optim opv H1) as [e He]. rewrite He.
      cbn [bind]. eauto.
  - rewrite (py_make_float_array_TypeError _ _ Hc). cbn [bind]. eauto.
Qed.

Lemma convert_kernel_diag_raises_unless_compiles_diag_witness :
  exists e,
    convert_kernel_diag (Product all_kinds (WhiteKernel 1)) (Input "X")
      (Some ["K"]) (Some float32) None (Some 18) = Raise e.
Proof.
  apply (convert_kernel_diag_raises_unless_compiles_diag
           (Product all_kinds (WhiteKernel 1)) (Input "X") (Some ["K"])
           (Some float32) None 18).
  reflexivity.
Defined.

(** ** What every emitted node carries *)

(** Takes apart a hypothesis saying that a leaf of the dispatchers returned
    a graph, down to the branch that built it. *)
Ltac leaf_result H :=
  unfold zeros_matrix, _zero_vector_of_size, scaled_distance, matern_formula,
    _convert_exp_sine_squared, _convert_dot_product,
    _convert_rational_quadratic, _convert_pairwise_kernel, select_cdist,
    py_make_float_array, shape_attr, hostval_of_param, param_sq,
    length_scale_const in H;
  cbn [bind] in H;
  repeat match type of H with
         | context [if ?b then _ else _] => destruct b; cbn [bind negb] in H
         | context [match ?o with Some _ => _ | None => _ end] =>
           destruct o; cbn [bind] in H
         | context [match ?p with PNum _ => _ | PArr _ => _ end] =>
           destruct p; cbn [bind] in H
         end;
  try discriminate H; inversion H; subst; clear H.

Lemma convert_kernel_op_version (k : kernel) :
  forall (X : onnx) (names : option (list string)) (x_train : option onnx)
         (dtype : option np_dtype) (optim : option string) (opv : nat)
         (g : onnx),
    op_version_in opv X = true ->
    match x_train with
    | Some xt => op_version_in opv xt = true
    | None => True
    end ->
    convert_kernel k X names x_train dtype optim (Some opv) = Ok g ->
    op_version_in opv g = true.
Proof.
  induction k; intros X names xt dtype optim opv g HX Hxt H;
    cbn [convert_kernel] in H.
  - apply bind_Ok in H as [a [Ha H]]. apply bind_Ok in H as [b [Hb H]].
    inversion H. simpl.
    now rewrite Nat.eqb_refl, (IHk1 _ _ _ _ _ _ _ HX Hxt Ha),
      (IHk2 _ _ _ _ _ _ _ HX Hxt Hb).
  - apply bind_Ok in H as [a [Ha H]]. apply bind_Ok in H as [b [Hb H]].
    inversion H. simpl.
    now rewrite Nat.eqb_refl, (IHk1 _ _ _ _ _ _ _ HX Hxt Ha),
      (IHk2 _ _ _ _ _ _ _ HX Hxt Hb).
  - leaf_result H; simpl; now rewrite ?Nat.eqb_refl, ?HX, ?Hxt.
  - leaf_result H; simpl; now rewrite ?Nat.eqb_refl, ?HX, ?Hxt.
  - leaf_result H; simpl; now rewrite ?Nat.eqb_refl, ?HX, ?Hxt.
  - leaf_result H; simpl; now rewrite ?Nat.eqb_refl, ?HX, ?Hxt.
  - leaf_result H; simpl; now rewrite ?Nat.eqb_refl, ?HX, ?Hxt.
  - leaf_result H; simpl; now rewrite ?Nat.eqb_refl, ?HX, ?Hxt.
  - leaf_result H; simpl; now rewrite ?Nat.eqb_refl, ?HX, ?Hxt.
  - leaf_result H; simpl; now rewrite ?Nat.eqb_refl, ?HX, ?Hxt.
  - discriminate H.
Qed.

Lemma convert_kernel_diag_op_version (k : kernel) :
  forall (X : onnx) (names : option (list string)) (dtype : option np_dtype)
         (optim : option string) (opv : nat) (g : onnx),
    op_version_in opv X = true ->
    convert_kernel_diag k X names dtype optim (Some opv) = Ok g ->
    op_version_in opv g = true.
Proof.
  induction k; intros X names dtype optim opv g HX H;
    cbn [convert_kernel_diag isinstance_RBF] in H; try discriminate H.
  - apply bind_Ok in H as [a [Ha H]]. apply bind_Ok in H as [b [Hb H]].
    inversion H. simpl.
    now rewrite Nat.eqb_refl, (IHk1 _ _ _ _ _ _ HX Ha),
      (IHk2 _ _ _ _ _ _ HX Hb).
  - apply bind_Ok in H as [a [Ha H]]. apply bind_Ok in H as [b [Hb H]].
    inversion H. simpl.
    now rewrite Nat.eqb_refl, (IHk1 _ _ _ _ _ _ HX Ha),
      (IHk2 _ _ _ _ _ _ HX Hb).
  - leaf_result H; simpl; now rewrite ?Nat.eqb_refl, ?HX.
  - leaf_result H; simpl; now rewrite ?Nat.eqb_refl, ?HX.
  - leaf_result H; simpl; now rewrite ?Nat.eqb_refl, ?HX.
  - leaf_result H; simpl; now rewrite ?Nat.eqb_refl, ?HX.
  - leaf_result H; simpl; now rewrite ?Nat.eqb_refl, ?HX.
  - leaf_result H; simpl; now rewrite ?Nat.eqb_refl, ?HX.
Qed.

(** X3: every node of a graph returned by [convert_kernel] or by
    [convert_kernel_diag] was built with the caller's operation-set version,
    provided the operands handed over ([X] and the training set) were. *)
Theorem every_node_has_the_op_version :
  forall (k : kernel) (X : onnx) (names : option (list string))
         (x_train : option onnx) (dtype : option np_dtype)
         (optim : option string) (opv : nat),
    op_version_in opv X = true ->
    match x_train with
    | Some xt => op_version_in opv xt = true
    | None => True
    end ->
    (forall g,
       convert_kernel k X names x_train dtype optim (Some opv) = Ok g ->
       op_version_in opv g = true)
    /\ (forall g,
          convert_kernel_diag k X names dtype optim (Some opv) = Ok g ->
          op_version_in opv g = true).
Proof.
  intros k X names xt dtype optim opv HX Hxt. split; intros g H.
  - now apply (convert_kernel_op_version k X names xt dtype optim opv).
  - now apply (convert_kernel_diag_op_version k X names dtype optim opv).
Qed.

Lemma every_node_has_the_op_version_witness :
  (forall g,
     convert_kernel all_kinds (Input "X") (Some ["K"])
       (Some (Array three_points)) (Some float32) None (Some 18) = Ok g ->
     op_version_in 18 g = true)
  /\ (forall g,
        convert_kernel_diag all_kinds (Input "X") (Some ["K"]) (Some float32)
          None (Some 18) = Ok g ->
        op_version_in 18 g = true).
Proof.
  apply (every_node_has_the_op_version all_kinds (Input "X") (Some ["K"])
           (Some (Array three_points)) (Some float32) None 18);
    reflexivity.
Defined.

(** ** Output names *)

Lemma unnamed_of_root (g : onnx) :
  root_names g = None -> operands_unnamed g = true -> unnamed g = true.
Proof. destruct g; simpl; intros Hn Ho; try reflexivity; now subst. Qed.

Lemma convert_kernel_root_names (k : kernel) :
  forall (X : onnx) (names : option (list string)) (x_train : option onnx)
         (dtype : option np_dtype) (optim : option string) (opv : nat)
         (g : onnx),
    unnamed X = true ->
    match x_train with Some xt => unnamed xt = true | None => True end ->
    convert_kernel k X names x_train dtype optim (Some opv) = Ok g ->
    root_names g = names /\ operands_unnamed g = true.
Proof.
  induction k; intros X names xt dtype optim opv g HX Hxt H;
    cbn [convert_kernel] in H.
  - apply bind_Ok in H as [a [Ha H]]. apply bind_Ok in H as [b [Hb H]].
    inversion H. simpl.
    destruct (IHk1 _ _ _ _ _ _ _ HX Hxt Ha) as [Na Oa].
    destruct (IHk2 _ _ _ _ _ _ _ HX Hxt Hb) as [Nb Ob].
    now rewrite (unnamed_of_root a Na Oa), (unnamed_of_root b Nb Ob).
  - apply bind_Ok in H as [a [Ha H]]. apply bind_Ok in H as [b [Hb H]].
    inversion H. simpl.
    destruct (IHk1 _ _ _ _ _ _ _ HX Hxt Ha) as [Na Oa].
    destruct (IHk2 _ _ _ _ _ _ _ HX Hxt Hb) as [Nb Ob].
    now rewrite (unnamed_of_root a Na Oa), (unnamed_of_root b Nb Ob).
  - leaf_result H; simpl; now rewrite ?HX, ?Hxt.
  - leaf_result H; simpl; now rewrite ?HX, ?Hxt.
  - leaf_result H; simpl; now rewrite ?HX, ?Hxt.
  - leaf_result H; simpl; now rewrite ?HX, ?Hxt.
  - leaf_result H; simpl; now rewrite ?HX, ?Hxt.
  - leaf_result H; simpl; now rewrite ?HX, ?Hxt.
  - leaf_result H; simpl; now rewrite ?HX, ?Hxt.
  - leaf_result H; simpl; now rewrite ?HX, ?Hxt.
  - discriminate H.
Qed.

Lemma convert_kernel_diag_root_names (k : kernel) :
  forall (X : onnx) (names : option (list string)) (dtype : option np_dtype)
         (optim : option string) (opv : nat) (g : onnx),
    unnamed X = true ->
    convert_kernel_diag k X names dtype optim (Some opv) = Ok g ->
    root_names g = names /\ operands_unnamed g = true.
Proof.
  induction k; intros X names dtype optim opv g HX H;
    cbn [convert_kernel_diag isinstance_RBF] in H; try discriminate H.
  - apply bind_Ok in H as [a [Ha H]]. apply bind_Ok in H as [b [Hb H]].
    inversion H. simpl.
    destruct (IHk1 _ _ _ _ _ _ HX Ha) as [Na Oa].
    destruct (IHk2 _ _ _ _ _ _ HX Hb) as [Nb Ob].
    now rewrite (unnamed_of_root a Na Oa), (unnamed_of_root b Nb Ob).
  - apply bind_Ok in H as [a [Ha H]]. apply bind_Ok in H as [b [Hb H]].
    inversion H. simpl.
    destruct (IHk1 _ _ _ _ _ _ HX Ha) as [Na Oa].
    destruct (IHk2 _ _ _ _ _ _ HX Hb) as [Nb Ob].
    now rewrite (unnamed_of_root a Na Oa), (unnamed_of_root b Nb Ob).
  - leaf_result H; simpl; now rewrite ?HX.
  - leaf_result H; simpl; now rewrite ?HX.
  - leaf_result H; simpl; now rewrite ?HX.
  - leaf_result H; simpl; now rewrite ?HX.
  - leaf_result H; simpl; now rewrite ?HX.
  - leaf_result H; simpl; now rewrite ?HX.
Qed.

(** X4: in a graph returned by [convert_kernel] or [convert_kernel_diag]
    the caller's output names sit on the root node and no node below the
    root carries any, provided the operands handed over carry none. *)
Theorem output_names_only_on_the_root :
  forall (k : kernel) (X : onnx) (names : option (list string))
         (x_train : option onnx) (dtype : option np_dtype)
         (optim : option string) (opv : nat),
    unnamed X = true ->
    match x_train with Some xt => unnamed xt = true | None => True end ->
    (forall g,
       convert_kernel k X names x_train dtype optim (Some opv) = Ok g ->
       root_names g = names /\ operands_unnamed g = true)
    /\ (forall g,
          convert_kernel_diag k X names dtype optim (Some opv) = Ok g ->
          root_names g = names /\ operands_unnamed g = true).
Proof.
  intros k X names xt dtype optim opv HX Hxt. split; intros g H.
  - now apply (convert_kernel_root_names k X names xt dtype optim opv).
  - now apply (convert_kernel_diag_root_names k X names dtype optim opv).
Qed.

Lemma output_names_only_on_the_root_witness :
  (forall g,
     convert_kernel all_kinds (Input "X") (Some ["K"])
       (Some (Array three_points)) (Some float32) None (Some 18) = Ok g ->
     root_names g = Some ["K"] /\ operands_unnamed g = true)
  /\ (forall g,
        convert_kernel_diag all_kinds (Input "X") (Some ["K"]) (Some float32)
          None (Some 18) = Ok g ->
        root_names g = Some ["K"] /\ operands_unnamed g = true).
Proof.
  apply (output_names_only_on_the_root all_kinds (Input "X") (Some ["K"])
           (Some (Array three_points)) (Some float32) None 18);
    reflexivity.
Defined.

(** X5: the output names change nothing but the names on the root node:
    for both dispatchers the result under any names is the result under no
    names with its root renamed, with the same value in every environment,
    or the same exception. *)
Theorem output_names_do_not_change_the_result :
  forall (k : kernel) (X : onnx) (names : option (list string))
         (x_train : option onnx) (dtype : option np_dtype)
         (optim : option string) (op_version : option nat),
    match convert_kernel k X names x_train dtype optim op_version,
          convert_kernel k X None x_train dtype optim op_version with
    | Ok g, Ok g0 =>
      g = with_output_names names g0 /\ forall rho, eval rho g = eval rho g0
    | Raise e, Raise e0 => e = e0
    | _, _ => False
    end
    /\ match convert_kernel_diag k X names dtype optim op_version,
             convert_kernel_diag k X None dtype optim op_version with
       | Ok g, Ok g0 =>
         g = with_output_names names g0
         /\ forall rho, eval rho g = eval rho g0
       | Raise e, Raise e0 => e = e0
       | _, _ => False
       end.
Proof.
  intros k X names xt dtype optim opv. split.
  - rewrite (convert_kernel_names k X names).
    destruct (convert_kernel k X None xt dtype optim opv); [|reflexivity].
    split; [reflexivity|]. intros rho. apply eval_with_output_names.
  - rewrite (convert_kernel_diag_names k X names).
    destruct (convert_kernel_diag k X None dtype optim opv); [|reflexivity].
    split; [reflexivity|]. intros rho. apply eval_with_output_names.
Qed.

(** ** The dtype of the arrays, continued *)




(** X7: with an operation-set version and a recognized [optim], a dtype
    other than float32 and float64 (the default [None] included) makes
    [convert_kernel] raise TypeError for RationalQuadratic, for
    ExpSineSquared with a scalar length scale and for DotProduct with a
    scalar [sigma_0] (its training set absent or a 2-dimensional array),
    and makes [convert_kernel_diag] raise TypeError for DotProduct. *)
Theorem non_float_dtype_raises_TypeError :
  forall (X : onnx) (names : option (list string)) (x_train : option onnx)
         (dtype : option np_dtype) (optim : option string) (opv : nat),
    is_float_dtype dtype = false ->
    recognized_optim optim = true ->
    (forall length_scale alpha,
       convert_kernel (RationalQuadratic length_scale alpha) X names x_train
         dtype optim (Some opv) = Raise TypeError)
    /\ (forall length_scale periodicity,
          convert_kernel (ExpSineSquared (PNum length_scale) periodicity) X
            names x_train dtype optim (Some opv) = Raise TypeError)
    /\ (forall sigma_0,
          train_set_is_2d x_train = true ->
          convert_kernel (DotProduct (PNum sigma_0)) X names x_train dtype
            optim (Some opv) = Raise TypeError)
    /\ (forall sigma_0,
          convert_kernel_diag (DotProduct sigma_0) X names dtype optim
            (Some opv) = Raise TypeError).
Proof.
  intros X names xt dtype optim opv Hdt Ho.
  assert (Hsel : forall Y metric, exists d,
            select_cdist X Y metric dtype optim opv = Ok d).
  { intros Y metric. unfold select_cdist. destruct optim as [o|]; [|eauto].
    simpl in Ho. rewrite Ho. eauto. }
  repeat split.
  - intros ls alpha. cbn [convert_kernel].
    destruct xt as [xt|]; unfold _convert_rational_quadratic;
      [destruct (Hsel xt "sqeuclidean") as [d Hd]
      |destruct (Hsel X "sqeuclidean") as [d Hd]];
      rewrite Hd; cbn [bind];
      now rewrite (py_make_float_array_TypeError _ _ Hdt).
  - intros ls p. cbn [convert_kernel is_float_or_int negb].
    unfold _convert_exp_sine_squared.
    destruct (Hsel (match xt with None => X | Some t => t end) "euclidean")
      as [d Hd].
    rewrite Hd. cbn [bind].
    now rewrite (py_make_float_array_TypeError _ _ Hdt).
  - intros s H2d. cbn [convert_kernel is_float_or_int negb].
    destruct xt as [xt|].
    + simpl in H2d. unfold shape_attr.
      destruct (as_ndarray xt) as [a|]; [|discriminate H2d].
      cbn [bind]. rewrite H2d. cbn [negb].
      unfold _convert_dot_product.
      now rewrite (py_make_float_array_TypeError _ _ Hdt).
    + unfold _convert_dot_product.
      now rewrite (py_make_float_array_TypeError _ _ Hdt).
  - intros s. cbn [convert_kernel_diag].
    now rewrite (py_make_float_array_TypeError _ _ Hdt).
Qed.

Lemma non_float_dtype_raises_TypeError_witness :
  (forall length_scale alpha,
     convert_kernel (RationalQuadratic length_scale alpha) (Input "X") None
       None None None (Some 18) = Raise TypeError)
  /\ (forall length_scale periodicity,
        convert_kernel (ExpSineSquared (PNum length_scale) periodicity)
          (Input "X") None None None None (Some 18) = Raise TypeError)
  /\ (forall sigma_0,
        train_set_is_2d None = true ->
        convert_kernel (DotProduct (PNum sigma_0)) (Input "X") None None None
          None (Some 18) = Raise TypeError)
  /\ (forall sigma_0,
        convert_kernel_diag (DotProduct sigma_0) (Input "X") None None None
          (Some 18) = Raise TypeError).
Proof.
  apply (non_float_dtype_raises_TypeError (Input "X") None None None None 18);
    reflexivity.
Defined.

(** ** The value of the compiled kernels *)

Lemma rsum_ext (n : nat) (u v : nat -> R) :
  (forall k, k < n -> u k = v k) -> rsum n u = rsum n v.
Proof.
  induction n as [|n IH]; intros H; simpl; [reflexivity|].
  rewrite IH by (intros; apply H; lia). rewrite H by lia. reflexivity.
Qed.

Lemma rsum_nonneg (n : nat) (u : nat -> R) :
  (forall k, k < n -> (0 <= u k)%R) -> (0 <= rsum n u)%R.
Proof.
  induction n as [|n IH]; intros H; simpl; [lra|].
  assert (0 <= rsum n u)%R by (apply IH; intros; apply H; lia).
  assert (0 <= u n)%R by (apply H; lia). lra.
Qed.

Lemma sqdist_nonneg (f : nat) (a b : nat -> nat -> R) (i j : nat) :
  (0 <= sqdist f a b i j)%R.
Proof.
  unfold sqdist. apply rsum_nonneg. intros k _.
  apply (Rle_0_sqr (a i k - b j k)).
Qed.

Lemma Q2R_half : Q2R (1 # 2) = (/ 2)%R.
Proof. unfold Q2R. simpl. lra. Qed.

Lemma Q2R_sq (q : Q) : Q2R (q ^ 2) = (Q2R q * Q2R q)%R.
Proof. simpl. apply Q2R_mult. Qed.

(** The zero matrix of lines 300-311, for any two point sets. *)
Lemma zeros_matrix_eval (rho : env) (X : onnx) (x_train : option onnx)
    (n f m f' : nat) (x y : nat -> nat -> R) (dtype : option np_dtype)
    (opv : nat) :
  eval rho X = Some (TMat n f x) ->
  eval rho (second_operand X x_train) = Some (TMat m f' y) ->
  exists g Z,
    zeros_matrix X x_train dtype opv = Ok g
    /\ eval rho g = Some (TMat n m Z)
    /\ forall i j, Z i j = 0%R.
Proof.
  intros HX HY. unfold zeros_matrix.
  destruct (zero_vector_eval rho X n f x None 0 true dtype opv HX)
    as [zx [Hzx Hex]].
  rewrite Hzx. cbn [bind].
  assert (Hy : exists zy,
             match x_train with
             | Some xt =>
               _zero_vector_of_size xt None 0 (Some true) dtype (Some opv)
             | None => Ok zx
             end = Ok zy
             /\ eval rho zy = Some (TMat m 1 (fun _ _ => cst_denote (CQ 0)))).
  { destruct x_train as [xt|]; cbn [second_operand] in HY.
    - destruct (zero_vector_eval rho xt m f' y None 0 true dtype opv HY)
        as [zy [Hzy Hey]]. exists zy. split; [exact Hzy | exact Hey].
    - rewrite HX in HY. inversion HY; subst.
      exists zx. split; [reflexivity | exact Hex]. }
  destruct Hy as [zy [Hzy Hey]]. rewrite Hzy. cbn [bind].
  do 2 eexists. split; [reflexivity|].
  unfold OnnxMatMul, OnnxTranspose. cbn [eval eval_unop eval_binop].
  rewrite Hex, Hey. cbn [Nat.eqb is_perm_10].
  split; [reflexivity|].
  intros i j. cbn. rewrite RMicromega.Q2R_0. lra.
Qed.

Lemma constant_kernel_entries (rho : env) (X : onnx) (x_train : option onnx)
    (n f m f' : nat) (x y : nat -> nat -> R) (c : Q)
    (names : option (list string)) (dtype : option np_dtype)
    (optim : option string) (opv : nat) :
  eval rho X = Some (TMat n f x) ->
  eval rho (second_operand X x_train) = Some (TMat m f' y) ->
  is_float_dtype dtype = true ->
  exists g M,
    convert_kernel (ConstantKernel c) X names x_train dtype optim (Some opv)
      = Ok g
    /\ eval rho g = Some (TMat n m M)
    /\ forall i j, M i j = Q2R c.
Proof.
  intros HX HY Hdt.
  destruct (zeros_matrix_eval rho X x_train n f m f' x y dtype opv HX HY)
    as [zm [Z [Hzm [Hev HZ]]]].
  cbn [convert_kernel]. rewrite Hzm. cbn [bind].
  do 2 eexists. split; [reflexivity|].
  unfold OnnxAdd. cbn [eval eval_binop].
  rewrite Hev, (eval_np_array1 rho _ dtype Hdt), broadcast2_mat_scalar.
  split; [reflexivity|].
  intros i j. cbn beta. rewrite HZ. cbn [nth cst_denote]. lra.
Qed.

(** X8: ConstantKernel(c) on [n] points against [m] points compiles to a
    graph whose value is the n x m matrix with [c] everywhere, whatever the
    coordinates and the numbers of features of the two point sets. *)
Theorem constant_kernel_value :
  forall (rho : env) (X : onnx) (x_train : option onnx) (n f m f' : nat)
         (x y : nat -> nat -> R) (c : Q) (names : option (list string))
         (dtype : option np_dtype) (optim : option string) (opv : nat),
    eval rho X = Some (TMat n f x) ->
    eval rho (second_operand X x_train) = Some (TMat m f' y) ->
    is_float_dtype dtype = true ->
    exists g M,
      convert_kernel (ConstantKernel c) X names x_train dtype optim (Some opv)
        = Ok g
      /\ eval rho g = Some (TMat n m M)
      /\ forall i j, M i j = Q2R c.
Proof.
  intros rho X x_train n f m f' x y c names dtype optim opv.
  intros HX HY Hdt.
  destruct (zeros_matrix_eval rho X x_train n f m f' x y dtype opv HX HY)
    as [zm [Z [Hzm [Hev HZ]]]].
  cbn [convert_kernel]. rewrite Hzm. cbn [bind].
  do 2 eexists. split; [reflexivity|].
  unfold OnnxAdd. cbn [eval eval_binop].
  rewrite Hev, (eval_np_array1 rho _ dtype Hdt), broadcast2_mat_scalar.
  split; [reflexivity|].
  intros i j. cbn beta. rewrite HZ. cbn [nth cst_denote]. lra.
Qed.

Lemma constant_kernel_value_witness :
  exists g M,
    convert_kernel (ConstantKernel 3) (Array line_012) None
      (Some (Array three_points)) (Some float32) None (Some 18) = Ok g
    /\ eval (fun _ => None) g = Some (TMat 3 3 M)
    /\ forall i j, M i j = Q2R 3.
Proof.
  apply (constant_kernel_value (fun _ => None) (Array line_012)
           (Some (Array three_points)) 3 1 3 2 (nd_entry line_012 1)
           (nd_entry three_points 2) 3 None (Some float32) None 18);
    reflexivity.
Defined.

Lemma white_kernel_entries (rho : env) (X : onnx) (n f : nat)
    (x : nat -> nat -> R) (noise_level : Q) (names : option (list string))
    (dtype : option np_dtype) (optim : option string) (opv : nat) :
  eval rho X = Some (TMat n f x) ->
  is_float_dtype dtype = true ->
  (exists g M,
     convert_kernel (WhiteKernel noise_level) X names None dtype optim
       (Some opv) = Ok g
     /\ eval rho g = Some (TMat n n M)
     /\ forall i j, j < n ->
          M i j = if i =? j then Q2R noise_level else 0%R)
  /\ forall x_train m f' y,
       eval rho x_train = Some (TMat m f' y) ->
       exists g Z,
         convert_kernel (WhiteKernel noise_level) X names (Some x_train)
           dtype optim (Some opv) = Ok g
         /\ eval rho g = Some (TMat n m Z)
         /\ forall i j, Z i j = 0%R.
Proof.
  intros HX Hdt. split.
  - destruct (zeros_matrix_eval rho X None n f n f x x dtype opv HX HX)
      as [zm [Z [Hzm [Hev HZ]]]].
    cbn [convert_kernel]. rewrite Hzm. cbn [bind].
    do 2 eexists. split; [reflexivity|].
    unfold OnnxMul, OnnxEyeLike, OnnxIdentity.
    cbn [eval eval_binop eval_unop].
    rewrite Hev, (eval_np_array1 rho _ dtype Hdt), broadcast2_mat_scalar.
    split; [reflexivity|].
    intros i j Hj. cbn beta. rewrite (bidx_lt n j Hj). cbn [nth cst_denote].
    destruct (i =? j); lra.
  - intros xt m f' y HY.
    destruct (zeros_matrix_eval rho X (Some xt) n f m f' x y dtype opv HX HY)
      as [zm [Z [Hzm [Hev HZ]]]].
    cbn [convert_kernel]. rewrite Hzm. cbn [bind].
    do 2 eexists. split; [reflexivity|].
    unfold OnnxIdentity. cbn [eval eval_unop]. rewrite Hev.
    split; [reflexivity | exact HZ].
Qed.

(** X9: WhiteKernel(noise_level) on [n] points without a training set
    compiles to [noise_level] times the n x n identity; with a training set
    of [m] points, be it the same points, it compiles to the n x m zero
    matrix. *)
Theorem white_kernel_value :
  forall (rho : env) (X : onnx) (n f : nat) (x : nat -> nat -> R)
         (noise_level : Q) (names : option (list string))
         (dtype : option np_dtype) (optim : option string) (opv : nat),
    eval rho X = Some (TMat n f x) ->
    is_float_dtype dtype = true ->
    (exists g M,
       convert_kernel (WhiteKernel noise_level) X names None dtype optim
         (Some opv) = Ok g
       /\ eval rho g = Some (TMat n n M)
       /\ forall i j, j < n ->
            M i j = if i =? j then Q2R noise_level else 0%R)
    /\ forall x_train m f' y,
         eval rho x_train = Some (TMat m f' y) ->
         exists g Z,
           convert_kernel (WhiteKernel noise_level) X names (Some x_train)
             dtype optim (Some opv) = Ok g
           /\ eval rho g = Some (TMat n m Z)
           /\ forall i j, Z i j = 0%R.
Proof.
  intros rho X n f x noise_level names dtype optim opv.
  intros HX Hdt. split.
  - destruct (zeros_matrix_eval rho X None n f n f x x dtype opv HX HX)
      as [zm [Z [Hzm [Hev HZ]]]].
    cbn [convert_kernel]. rewrite Hzm. cbn [bind].
    do 2 eexists. split; [reflexivity|].
    unfold OnnxMul, OnnxEyeLike, OnnxIdentity.
    cbn [eval eval_binop eval_unop].
    rewrite Hev, (eval_np_array1 rho _ dtype Hdt), broadcast2_mat_scalar.
    split; [reflexivity|].
    intros i j Hj. cbn beta. rewrite (bidx_lt n j Hj). cbn [nth cst_denote].
    destruct (i =? j); lra.
  - intros xt m f' y HY.
    destruct (zeros_matrix_eval rho X (Some xt) n f m f' x y dtype opv HX HY)
      as [zm [Z [Hzm [Hev HZ]]]].
    cbn [convert_kernel]. rewrite Hzm. cbn [bind].
    do 2 eexists. split; [reflexivity|].
    unfold OnnxIdentity. cbn [eval eval_unop]. rewrite Hev.
    split; [reflexivity | exact HZ].
Qed.

Lemma white_kernel_value_witness :
  (exists g M,
     convert_kernel (WhiteKernel (1 # 2)) (Array line_012) None None
       (Some float32) None (Some 18) = Ok g
     /\ eval (fun _ => None) g = Some (TMat 3 3 M)
     /\ forall i j, j < 3 -> M i j = if i =? j then Q2R (1 # 2) else 0%R)
  /\ forall x_train m f' y,
       eval (fun _ => None) x_train = Some (TMat m f' y) ->
       exists g Z,
         convert_kernel (WhiteKernel (1 # 2)) (Array line_012) None
           (Some x_train) (Some float32) None (Some 18) = Ok g
         /\ eval (fun _ => None) g = Some (TMat 3 m Z)
         /\ forall i j, Z i j = 0%R.
Proof.
  apply (white_kernel_value (fun _ => None) (Array line_012) 3 1
           (nd_entry line_012 1) (1 # 2) None (Some float32) None 18);
    reflexivity.
Defined.

Lemma cst_denote_nth_map (w : list Q) (i : nat) :
  cst_denote (nth i (map CQ w) (CQ 0)) = Q2R (nth i w 0%Q).
Proof. now rewrite (map_nth CQ w 0%Q i). Qed.

Lemma length_scale_const_value (rho : env) (length_scale : param) (f : nat)
    (dtype : option np_dtype) :
  length_scale_fits length_scale f = true ->
  is_float_dtype dtype = true ->
  exists m v,
    eval rho (length_scale_const length_scale dtype) = Some (TVec m v)
    /\ (m = 1 \/ m = f)
    /\ forall k, v (bidx m k) = length_scale_at length_scale k.
Proof.
  intros Hfit Hdt. unfold length_scale_const.
  destruct length_scale as [q|w].
  - rewrite (eval_np_array1 rho _ dtype Hdt).
    do 2 eexists. split; [reflexivity|]. split; [now left|].
    intros k. reflexivity.
  - simpl in Hfit.
    assert (Hpos : (0 <? List.length w) = true
                   /\ (List.length w = 1 \/ List.length w = f)).
    { apply orb_prop in Hfit as [H1|H2].
      - apply Nat.eqb_eq in H1. rewrite H1. split; [reflexivity | now left].
      - apply andb_prop in H2 as [Hp Hl]. apply Nat.eqb_eq in Hl.
        split; [exact Hp | now right]. }
    destruct Hpos as [Hpos Hlen]. rewrite Hpos.
    cbn [eval]. unfold eval_NpArray.
    rewrite (float_not_int64 _ Hdt), (float_not_py_type _ Hdt).
    do 2 eexists. split; [reflexivity|]. split; [exact Hlen|].
    intros k. cbn beta. apply cst_denote_nth_map.
Qed.

(** The points divided by the length scale, feature by feature. *)
Lemma scaled_points_value (rho : env) (X : onnx) (n f : nat)
    (x : nat -> nat -> R) (length_scale : param) (dtype : option np_dtype)
    (opv : nat) :
  eval rho X = Some (TMat n f x) ->
  length_scale_fits length_scale f = true ->
  is_float_dtype dtype = true ->
  exists xs,
    eval rho (OnnxDiv X (length_scale_const length_scale dtype) opv)
    = Some (TMat n f xs)
    /\ forall i k, k < f ->
         xs i k = (x i k / length_scale_at length_scale k)%R.
Proof.
  intros HX Hfit Hdt.
  destruct (length_scale_const_value rho length_scale f dtype Hfit Hdt)
    as [m [v [Hc [Hm Hv]]]].
  unfold OnnxDiv. cbn [eval eval_binop]. rewrite HX, Hc.
  unfold broadcast2.
  assert (Hb : bdim f m = Some f)
    by (destruct Hm as [-> | ->]; [apply bdim_1_r | apply bdim_refl]).
  rewrite Hb. eexists. split; [reflexivity|].
  intros i k Hk. cbn beta. now rewrite (bidx_lt f k Hk), Hv.
Qed.

Lemma sqdist_scaled (length_scale : param) (f : nat)
    (x y xs ys : nat -> nat -> R) (i j : nat) :
  (forall i k, k < f -> xs i k = (x i k / length_scale_at length_scale k)%R) ->
  (forall j k, k < f -> ys j k = (y j k / length_scale_at length_scale k)%R) ->
  sqdist f xs ys i j = scaled_sqdist length_scale f x y i j.
Proof.
  intros Hx Hy. unfold sqdist, scaled_sqdist. apply rsum_ext.
  intros k Hk. now rewrite (Hx i k Hk), (Hy j k Hk).
Qed.

(** The distance lines 326-351 hand to the formulas: squared for RBF, and
    for Matern under the fused strategy; Euclidean for Matern otherwise. *)
Lemma scaled_distance_value (rho : env) (X : onnx) (x_train : option onnx)
    (n m f : nat) (x y : nat -> nat -> R) (is_rbf : bool)
    (length_scale : param) (dtype : option np_dtype) (optim : option string)
    (opv : nat) :
  eval rho X = Some (TMat n f x) ->
  eval rho (second_operand X x_train) = Some (TMat m f y) ->
  length_scale_fits length_scale f = true ->
  is_float_dtype dtype = true ->
  recognized_optim optim = true ->
  exists d D,
    scaled_distance is_rbf length_scale X x_train dtype optim opv = Ok d
    /\ eval rho d = Some (TMat n m D)
    /\ forall i j,
         D i j = if is_rbf || negb (matern_gets_euclidean x_train optim)
                 then scaled_sqdist length_scale f x y i j
                 else sqrt (scaled_sqdist length_scale f x y i j).
Proof.
  intros HX HY Hfit Hdt Ho.
  destruct (scaled_points_value rho X n f x length_scale dtype opv HX Hfit Hdt)
    as [xs [Hxs Hx]].
  unfold scaled_distance.
  destruct x_train as [xt|]; cbn [second_operand] in HY.
  - destruct (scaled_points_value rho xt m f y length_scale dtype opv HY Hfit
                Hdt) as [ys [Hys Hy]].
    destruct optim as [o|].
    + simpl in Ho. rewrite Ho.
      do 2 eexists. split; [reflexivity|].
      unfold OnnxCDist. cbn [eval eval_binop]. rewrite Hxs, Hys.
      unfold pairwise. rewrite Nat.eqb_refl. cbn [String.eqb Ascii.eqb Bool.eqb].
      split; [reflexivity|].
      intros i j. cbn [matern_gets_euclidean negb]. rewrite orb_true_r.
      now apply sqdist_scaled.
    + destruct is_rbf; do 2 eexists; (split; [reflexivity|]);
        unfold onnx_cdist; cbn [eval eval_binop]; rewrite Hxs, Hys;
        unfold pairwise; rewrite Nat.eqb_refl;
        cbn [String.eqb Ascii.eqb Bool.eqb];
        (split; [reflexivity|]);
        intros i j; cbn [matern_gets_euclidean negb orb];
        now rewrite (sqdist_scaled length_scale f x y xs ys i j Hx Hy).
  - rewrite HX in HY. inversion HY; subst m y.
    destruct is_rbf; do 2 eexists; (split; [reflexivity|]);
      unfold onnx_squareform_pdist; cbn [eval eval_unop]; rewrite Hxs;
      unfold pairwise; rewrite Nat.eqb_refl;
      cbn [String.eqb Ascii.eqb Bool.eqb];
      (split; [reflexivity|]);
      intros i j; cbn [matern_gets_euclidean negb orb];
      now rewrite (sqdist_scaled length_scale f x x xs xs i j Hx Hx).
Qed.

(** The kernels that pair the points of [X] with those of a second set,
    [x_train] or [X] itself.  Throughout, [X] evaluates to an n x f matrix
    [x] and the second set to an m x f matrix [y]; where they are used, the
    dtype is float32 or float64 and [optim] is recognized. *)
Section PairwiseKernels.

Variables (rho : env) (X : onnx) (x_train : option onnx).
Variables (n m f : nat) (x y : nat -> nat -> R).
Variables (names : option (list string)) (dtype : option np_dtype).
Variables (optim : option string) (opv : nat).

Hypothesis HX : eval rho X = Some (TMat n f x).
Hypothesis HY : eval rho (second_operand X x_train) = Some (TMat m f y).
Hypothesis Hdt : is_float_dtype dtype = true.
Hypothesis Ho : recognized_optim optim = true.

Lemma rbf_entries (length_scale : param) :
  length_scale_fits length_scale f = true ->
  exists g M,
    convert_kernel (RBF length_scale) X names x_train dtype optim (Some opv)
      = Ok g
    /\ eval rho g = Some (TMat n m M)
    /\ forall i j, i < n -> j < m ->
         M i j = exp (- (scaled_sqdist length_scale f x y i j / 2)).
Proof.
  intros Hfit.
  destruct (scaled_distance_value rho X x_train n m f x y true length_scale
              dtype optim opv HX HY Hfit Hdt Ho) as [d [D [Hsd [Hd HD]]]].
  cbn [convert_kernel]. rewrite Hsd. cbn [bind].
  pose proof Hdt as Hni.
  do 2 eexists. split; [reflexivity|]. eval_formula Hd Hni.
  split; [reflexivity|].
  intros i j Hi Hj. cbn beta. rewrite (bidx_lt m j Hj), HD.
  cbn [orb nth cst_denote]. now rewrite Q2R_half.
Qed.

Lemma Q2R_3 : Q2R 3 = 3%R.
Proof. unfold Q2R. simpl. lra. Qed.

Lemma matern_entries (length_scale : param) :
  length_scale_fits length_scale f = true ->
  matern_gets_euclidean x_train optim = true ->
  (exists g M,
     convert_kernel (Matern length_scale (Fin (1 # 2))) X names x_train dtype
       optim (Some opv) = Ok g
     /\ eval rho g = Some (TMat n m M)
     /\ forall i j, i < n -> j < m ->
          M i j = exp (- sqrt (scaled_sqdist length_scale f x y i j)))
  /\ (exists g M,
        convert_kernel (Matern length_scale (Fin (3 # 2))) X names x_train
          dtype optim (Some opv) = Ok g
        /\ eval rho g = Some (TMat n m M)
        /\ forall i j, i < n -> j < m ->
             let K := (sqrt (scaled_sqdist length_scale f x y i j)
                       * sqrt 3)%R in
             M i j = ((K + 1) * exp (- K))%R)
  /\ (exists g M,
        convert_kernel (Matern length_scale Inf) X names x_train dtype optim
          (Some opv) = Ok g
        /\ eval rho g = Some (TMat n m M)
        /\ forall i j, i < n -> j < m ->
             let d := sqrt (scaled_sqdist length_scale f x y i j) in
             M i j = exp (- (d * d / 2))).
Proof.
  intros Hfit Heu.
  destruct (scaled_distance_value rho X x_train n m f x y false length_scale
              dtype optim opv HX HY Hfit Hdt Ho) as [d [D [Hsd [Hd HD]]]].
  rewrite Heu in HD. cbn [orb negb] in HD.
  cbn [convert_kernel]. rewrite Hsd. cbn [bind].
  pose proof Hdt as Hni.
  repeat split.
  - do 2 eexists. split; [reflexivity|]. eval_formula Hd Hni.
    split; [reflexivity|].
    intros i j Hi Hj. cbn beta. now rewrite HD.
  - do 2 eexists. split; [reflexivity|]. eval_formula Hd Hni.
    split; [reflexivity|].
    intros i j Hi Hj. cbn beta zeta.
    rewrite ?(bidx_lt n i Hi), !(bidx_lt m j Hj), !HD.
    cbn [nth cst_denote]. now rewrite Q2R_3, RMicromega.Q2R_1.
  - do 2 eexists. split; [reflexivity|]. eval_formula Hd Hni.
    split; [reflexivity|].
    intros i j Hi Hj. cbn beta zeta.
    rewrite ?(bidx_lt n i Hi), !(bidx_lt m j Hj), !HD.
    cbn [nth cst_denote]. now rewrite Q2R_2.
Qed.

(** X10: RBF(length_scale) on the points [x] against the points [y], under
    either distance strategy, compiles to a graph whose value is the matrix
    of exp(-d2/2), where d2 is the squared Euclidean distance between the
    two points divided feature by feature by the length scale. *)
Theorem rbf_value :
  forall length_scale : param,
    length_scale_fits length_scale f = true ->
    exists g M,
      convert_kernel (RBF length_scale) X names x_train dtype optim (Some opv)
        = Ok g
      /\ eval rho g = Some (TMat n m M)
      /\ forall i j, i < n -> j < m ->
           M i j = exp (- (scaled_sqdist length_scale f x y i j / 2)).
Proof.
  intros length_scale.
  intros Hfit.
  destruct (scaled_distance_value rho X x_train n m f x y true length_scale
              dtype optim opv HX HY Hfit Hdt Ho) as [d [D [Hsd [Hd HD]]]].
  cbn [convert_kernel]. rewrite Hsd. cbn [bind].
  pose proof Hdt as Hni.
  do 2 eexists. split; [reflexivity|]. eval_formula Hd Hni.
  split; [reflexivity|].
  intros i j Hi Hj. cbn beta. rewrite (bidx_lt m j Hj), HD.
  cbn [orb nth cst_denote]. now rewrite Q2R_half.
Qed.

(** X11: Matern(length_scale, nu) with nu among 0.5, 1.5 and inf, without a
    training set, or with one under the unfused strategy, compiles to the
    closed forms of sklearn on the Euclidean distance d of the scaled
    points: exp(-d) for nu = 0.5, (1 + K) exp(-K) with K = sqrt(3) d for
    nu = 1.5, and exp(-d^2/2) for nu = inf. *)
Theorem matern_value :
  forall length_scale : param,
    length_scale_fits length_scale f = true ->
    matern_gets_euclidean x_train optim = true ->
    (exists g M,
       convert_kernel (Matern length_scale (Fin (1 # 2))) X names x_train
         dtype optim (Some opv) = Ok g
       /\ eval rho g = Some (TMat n m M)
       /\ forall i j, i < n -> j < m ->
            M i j = exp (- sqrt (scaled_sqdist length_scale f x y i j)))
    /\ (exists g M,
          convert_kernel (Matern length_scale (Fin (3 # 2))) X names x_train
            dtype optim (Some opv) = Ok g
          /\ eval rho g = Some (TMat n m M)
          /\ forall i j, i < n -> j < m ->
               let K := (sqrt (scaled_sqdist length_scale f x y i j)
                         * sqrt 3)%R in
               M i j = ((K + 1) * exp (- K))%R)
    /\ (exists g M,
          convert_kernel (Matern length_scale Inf) X names x_train dtype optim
            (Some opv) = Ok g
          /\ eval rho g = Some (TMat n m M)
          /\ forall i j, i < n -> j < m ->
               let d := sqrt (scaled_sqdist length_scale f x y i j) in
               M i j = exp (- (d * d / 2))).
Proof.
  intros length_scale.
  intros Hfit Heu.
  destruct (scaled_distance_value rho X x_train n m f x y false length_scale
              dtype optim opv HX HY Hfit Hdt Ho) as [d [D [Hsd [Hd HD]]]].
  rewrite Heu in HD. cbn [orb negb] in HD.
  cbn [convert_kernel]. rewrite Hsd. cbn [bind].
  pose proof Hdt as Hni.
  repeat split.
  - do 2 eexists. split; [reflexivity|]. eval_formula Hd Hni.
    split; [reflexivity|].
    intros i j Hi Hj. cbn beta. now rewrite HD.
  - do 2 eexists. split; [reflexivity|]. eval_formula Hd Hni.
    split; [reflexivity|].
    intros i j Hi Hj. cbn beta zeta.
    rewrite ?(bidx_lt n i Hi), !(bidx_lt m j Hj), !HD.
    cbn [nth cst_denote]. now rewrite Q2R_3, RMicromega.Q2R_1.
  - do 2 eexists. split; [reflexivity|]. eval_formula Hd Hni.
    split; [reflexivity|].
    intros i j Hi Hj. cbn beta zeta.
    rewrite ?(bidx_lt n i Hi), !(bidx_lt m j Hj), !HD.
    cbn [nth cst_denote]. now rewrite Q2R_2.
Qed.

Lemma scaled_sqdist_nonneg (length_scale : param) (i j : nat) :
  (0 <= scaled_sqdist length_scale f x y i j)%R.
Proof.
  unfold scaled_sqdist. apply rsum_nonneg. intros k _.
  apply (Rle_0_sqr (x i k / length_scale_at length_scale k
                    - y j k / length_scale_at length_scale k)).
Qed.

(** X12: without a training set, or under the unfused strategy, RBF and
    Matern with nu = inf compile to graphs with the same value, entry by
    entry. *)
Theorem rbf_equals_matern_inf :
  forall length_scale : param,
    length_scale_fits length_scale f = true ->
    matern_gets_euclidean x_train optim = true ->
    exists g g' M M',
      convert_kernel (RBF length_scale) X names x_train dtype optim (Some opv)
        = Ok g
      /\ convert_kernel (Matern length_scale Inf) X names x_train dtype optim
           (Some opv) = Ok g'
      /\ eval rho g = Some (TMat n m M)
      /\ eval rho g' = Some (TMat n m M')
      /\ forall i j, i < n -> j < m -> M i j = M' i j.
Proof.
  intros ls Hfit Heu.
  destruct (rbf_entries ls Hfit) as [g [M [Hg [HM HMv]]]].
  destruct (matern_entries ls Hfit Heu)
    as [_ [_ [g' [M' [Hg' [HM' HMv']]]]]].
  exists g, g', M, M'. repeat (split; [assumption|]).
  intros i j Hi Hj. rewrite (HMv i j Hi Hj), (HMv' i j Hi Hj). cbn zeta.
  now rewrite (sqrt_sqrt _ (scaled_sqdist_nonneg ls i j)).
Qed.

Lemma select_cdist_value (metric : string) :
  exists d,
    select_cdist X (second_operand X x_train) metric dtype optim opv = Ok d
    /\ eval rho d = pairwise metric (TMat n f x) (TMat m f y).
Proof.
  unfold select_cdist. destruct optim as [o|].
  - simpl in Ho. rewrite Ho. eexists. split; [reflexivity|].
    unfold OnnxCDist. cbn [eval eval_binop]. now rewrite HX, HY.
  - eexists. split; [reflexivity|].
    unfold onnx_cdist. cbn [eval eval_binop]. now rewrite HX, HY.
Qed.

Lemma tpow_2 (r : R) : tpow r 2 = (r * r)%R.
Proof.
  unfold tpow.
  assert (E : Int_part 2 = 2%Z).
  { replace 2%R with (INR 2) by (simpl; lra). apply Int_part_INR. }
  rewrite E.
  destruct (Req_dec_T (IZR 2) 2) as [_|N]; [|exfalso; apply N; reflexivity].
  simpl. ring.
Qed.

Lemma tpow_pos (b e : R) : (0 < b)%R -> tpow b e = Rpower b e.
Proof.
  intros Hb. unfold tpow.
  destruct (Req_dec_T (IZR (Int_part e)) e) as [E|_]; [|reflexivity].
  rewrite (powerRZ_Rpower b _ Hb). now rewrite E.
Qed.

Lemma rational_quadratic_entries (length_scale alpha : Q) :
  (0 < Q2R alpha)%R ->
  Q2R length_scale <> 0%R ->
  exists g M,
    convert_kernel (RationalQuadratic length_scale alpha) X names x_train
      dtype optim (Some opv) = Ok g
    /\ eval rho g = Some (TMat n m M)
    /\ forall i j, i < n -> j < m ->
         M i j = Rpower
                   (sqdist f x y i j
                    / (Q2R length_scale * Q2R length_scale * Q2R alpha * 2)
                    + 1)
                   (- Q2R alpha).
Proof.
  intros Ha Hl.
  destruct (select_cdist_value "sqeuclidean") as [d [Hsel Hd]].
  unfold pairwise in Hd. rewrite Nat.eqb_refl in Hd.
  cbn [String.eqb Ascii.eqb Bool.eqb] in Hd.
  assert (E : convert_kernel (RationalQuadratic length_scale alpha) X names
                x_train dtype optim (Some opv)
              = _convert_rational_quadratic X (second_operand X x_train)
                  length_scale alpha dtype optim opv names)
    by (destruct x_train; reflexivity).
  rewrite E. unfold _convert_rational_quadratic.
  rewrite Hsel, !(py_make_float_array_Ok _ _ Hdt). cbn [bind].
  pose proof Hdt as Hni.
  do 2 eexists. split; [reflexivity|]. eval_formula Hd Hni.
  split; [reflexivity|].
  intros i j Hi Hj. cbn beta. rewrite !(bidx_lt m j Hj).
  cbn [nth cst_denote].
  rewrite !Q2R_mult, Q2R_sq, Q2R_2, Q2R_opp, RMicromega.Q2R_1.
  apply tpow_pos.
  assert (Hc : (0 < Q2R length_scale * Q2R length_scale * Q2R alpha * 2)%R).
  { assert (0 < Q2R length_scale * Q2R length_scale)%R by nra. nra. }
  pose proof (sqdist_nonneg f x y i j) as Hd0.
  assert (0 <= sqdist f x y i j
               / (Q2R length_scale * Q2R length_scale * Q2R alpha * 2))%R.
  { unfold Rdiv. apply Rmult_le_pos; [exact Hd0|].
    left. now apply Rinv_0_lt_compat. }
  lra.
Qed.

Lemma exp_sine_squared_entries (length_scale periodicity : Q) :
  exists g M,
    convert_kernel (ExpSineSquared (PNum length_scale) periodicity) X names
      x_train dtype optim (Some opv) = Ok g
    /\ eval rho g = Some (TMat n m M)
    /\ forall i j, i < n -> j < m ->
         let s := (sin (sqrt (sqdist f x y i j) / Q2R periodicity * PI)
                   / Q2R length_scale)%R in
         M i j = exp (- 2 * (s * s)).
Proof.
  destruct (select_cdist_value "euclidean") as [d [Hsel Hd]].
  unfold pairwise in Hd. rewrite Nat.eqb_refl in Hd.
  cbn [String.eqb Ascii.eqb Bool.eqb] in Hd.
  cbn [convert_kernel is_float_or_int negb].
  change (match x_train with None => X | Some x_train0 => x_train0 end)
    with (second_operand X x_train).
  unfold _convert_exp_sine_squared.
  rewrite Hsel, !(py_make_float_array_Ok _ _ Hdt).
  cbn [bind hostval_of_param].
  pose proof Hdt as Hni.
  do 2 eexists. split; [reflexivity|]. eval_formula Hd Hni.
  split; [reflexivity|].
  intros i j Hi Hj. cbn beta zeta. rewrite !(bidx_lt m j Hj).
  cbn [nth cst_denote].
  assert (Em2 : Q2R (-2) = (-2)%R) by (unfold Q2R; simpl; lra).
  rewrite Em2, Q2R_2, tpow_2. f_equal. ring.
Qed.

Lemma dot_product_entries (sigma_0 : Q) :
  train_set_is_2d x_train = true ->
  exists g M,
    convert_kernel (DotProduct (PNum sigma_0)) X names x_train dtype optim
      (Some opv) = Ok g
    /\ eval rho g = Some (TMat n m M)
    /\ forall i j, i < n -> j < m ->
         M i j = (dot f x y i j + Q2R sigma_0 * Q2R sigma_0)%R.
Proof.
  intros H2d.
  assert (E : convert_kernel (DotProduct (PNum sigma_0)) X names x_train
                dtype optim (Some opv)
              = _convert_dot_product X (second_operand X x_train)
                  (PNum sigma_0) dtype opv names).
  { cbn [convert_kernel is_float_or_int negb].
    destruct x_train as [xt|]; [|reflexivity].
    simpl in H2d. unfold shape_attr.
    destruct (as_ndarray xt) as [a|]; [|discriminate H2d].
    cbn [bind]. now rewrite H2d. }
  rewrite E. unfold _convert_dot_product.
  rewrite (py_make_float_array_Ok _ _ Hdt).
  cbn [bind hostval_of_param param_sq].
  pose proof Hdt as Hni.
  assert (Htr : eval rho
                  match as_ndarray (second_operand X x_train) with
                  | Some a => NpTransposed dtype a
                  | None =>
                    OnnxTranspose (second_operand X x_train) [1; 0] opv
                  end
                = Some (TMat f m (fun k j => y j k))).
  { destruct (second_operand X x_train) as [| a | | | | |] eqn:EY;
      cbn [as_ndarray];
      try (unfold OnnxTranspose; cbn [eval eval_unop];
           cbn [eval] in HY; rewrite HY; reflexivity).
    destruct (eval_array_matrix rho a m f y HY) as [Hsh Hy].
    cbn [eval]. rewrite Hsh. now subst y. }
  do 2 eexists. split; [reflexivity|].
  unfold OnnxIdentity, OnnxAdd, OnnxMatMul.
  cbn [eval eval_binop eval_unop]. rewrite HX, Htr, Nat.eqb_refl.
  rewrite (eval_NpArray_scalar _ _ Hni), broadcast2_mat_scalar.
  split; [reflexivity|].
  intros i j Hi Hj. cbn beta. rewrite (bidx_lt m j Hj).
  cbn [nth cst_denote]. now rewrite Q2R_sq.
Qed.

Lemma broadcast2_mat_column (op : R -> R -> R) (r c : nat)
    (a b : nat -> nat -> R) :
  broadcast2 op (TMat r c a) (TMat r 1 b)
  = Some (TMat r c (fun i j => op (a (bidx r i) (bidx c j))
                                  (b (bidx r i) 0))).
Proof. unfold broadcast2. now rewrite bdim_refl, bdim_1_r. Qed.

Lemma cosine_entries :
  exists g M,
    convert_kernel (PairwiseKernel "cosine") X names x_train dtype optim
      (Some opv) = Ok g
    /\ eval rho g = Some (TMat n m M)
    /\ forall i j, i < n -> j < m ->
         M i j = rsum f (fun k =>
                   (x i k / sqrt (row_sumsq f x i)
                    * (y j k / sqrt (row_sumsq f y j)))%R).
Proof.
  assert (E : convert_kernel (PairwiseKernel "cosine") X names x_train dtype
                optim (Some opv)
              = _convert_pairwise_kernel X (second_operand X x_train)
                  "cosine" dtype opv optim names)
    by (destruct x_train; reflexivity).
  rewrite E. unfold _convert_pairwise_kernel.
  cbn [String.eqb Ascii.eqb Bool.eqb].
  assert (Hnt : exists nt N,
            match as_ndarray (second_operand X x_train) with
            | Some a =>
              if List.length (nd_shape a) <? 2 then Raise ValueError
              else Ok (NpCosineTransposed dtype a)
            | None =>
              Ok (OnnxTranspose
                    (OnnxDiv (second_operand X x_train)
                       (OnnxReduceL2_typed dtype (second_operand X x_train)
                          [1] opv) opv) [1; 0] opv)
            end = Ok nt
            /\ eval rho nt = Some (TMat f m N)
            /\ forall k j, k < f -> j < m ->
                 N k j = (y j k / sqrt (row_sumsq f y j))%R).
  { destruct (second_operand X x_train) as [| a | | | | |] eqn:EY;
      cbn [as_ndarray];
      try (do 2 eexists; split; [reflexivity|];
           unfold OnnxTranspose, OnnxDiv, OnnxReduceL2_typed;
           cbn [eval eval_unop eval_binop]; cbn [eval] in HY; rewrite HY;
           cbn [is_axes_1 is_perm_10]; rewrite broadcast2_mat_column;
           split; [reflexivity|];
           intros k j Hk Hj; cbn beta;
           now rewrite (bidx_lt m j Hj), (bidx_lt f k Hk)).
    destruct (eval_array_matrix rho a m f y HY) as [Hsh Hy].
    rewrite Hsh. cbn [List.length Nat.ltb Nat.leb].
    do 2 eexists. split; [reflexivity|].
    cbn [eval]. rewrite Hsh. split; [reflexivity|].
    intros k j Hk Hj. cbn beta. now subst y. }
  destruct Hnt as [nt [N [Hnt [HN HNv]]]]. rewrite Hnt. cbn [bind].
  do 2 eexists. split; [reflexivity|].
  unfold OnnxIdentity, OnnxMatMul, OnnxDiv, OnnxReduceL2_typed.
  cbn [eval eval_binop eval_unop]. rewrite HX, HN.
  cbn [is_axes_1]. rewrite broadcast2_mat_column. rewrite Nat.eqb_refl.
  split; [reflexivity|].
  intros i j Hi Hj. cbn beta. apply rsum_ext. intros k Hk.
  now rewrite (bidx_lt n i Hi), (bidx_lt f k Hk), (HNv k j Hk Hj).
Qed.

(** X13: RationalQuadratic(length_scale, alpha) with alpha > 0 and a
    non-zero length scale compiles, under either strategy, to the matrix of
    (d2 / (length_scale^2 * alpha * 2) + 1) ^ (-alpha), where d2 is the
    squared Euclidean distance between the two points. *)
Theorem rational_quadratic_value :
  forall length_scale alpha : Q,
    (0 < Q2R alpha)%R ->
    Q2R length_scale <> 0%R ->
    exists g M,
      convert_kernel (RationalQuadratic length_scale alpha) X names x_train
        dtype optim (Some opv) = Ok g
      /\ eval rho g = Some (TMat n m M)
      /\ forall i j, i < n -> j < m ->
           M i j = Rpower
                     (sqdist f x y i j
                      / (Q2R length_scale * Q2R length_scale * Q2R alpha * 2)
                      + 1)
                     (- Q2R alpha).
Proof.
  intros length_scale alpha.
  intros Ha Hl.
  destruct (select_cdist_value "sqeuclidean") as [d [Hsel Hd]].
  unfold pairwise in Hd. rewrite Nat.eqb_refl in Hd.
  cbn [String.eqb Ascii.eqb Bool.eqb] in Hd.
  assert (E : convert_kernel (RationalQuadratic length_scale alpha) X names
                x_train dtype optim (Some opv)
              = _convert_rational_quadratic X (second_operand X x_train)
                  length_scale alpha dtype optim opv names)
    by (destruct x_train; reflexivity).
  rewrite E. unfold _convert_rational_quadratic.
  rewrite Hsel, !(py_make_float_array_Ok _ _ Hdt). cbn [bind].
  pose proof Hdt as Hni.
  do 2 eexists. split; [reflexivity|]. eval_formula Hd Hni.
  split; [reflexivity|].
  intros i j Hi Hj. cbn beta. rewrite !(bidx_lt m j Hj).
  cbn [nth cst_denote].
  rewrite !Q2R_mult, Q2R_sq, Q2R_2, Q2R_opp, RMicromega.Q2R_1.
  apply tpow_pos.
  assert (Hc : (0 < Q2R length_scale * Q2R length_scale * Q2R alpha * 2)%R).
  { assert (0 < Q2R length_scale * Q2R length_scale)%R by nra. nra. }
  pose proof (sqdist_nonneg f x y i j) as Hd0.
  assert (0 <= sqdist f x y i j
               / (Q2R length_scale * Q2R length_scale * Q2R alpha * 2))%R.
  { unfold Rdiv. apply Rmult_le_pos; [exact Hd0|].
    left. now apply Rinv_0_lt_compat. }
  lra.
Qed.

(** X14: ExpSineSquared(length_scale, periodicity) with a scalar length
    scale compiles, under either strategy, to the matrix of
    exp(-2 (sin(pi d / periodicity) / length_scale)^2), where d is the
    Euclidean distance between the two points. *)
Theorem exp_sine_squared_value :
  forall length_scale periodicity : Q,
    exists g M,
      convert_kernel (ExpSineSquared (PNum length_scale) periodicity) X names
        x_train dtype optim (Some opv) = Ok g
      /\ eval rho g = Some (TMat n m M)
      /\ forall i j, i < n -> j < m ->
           let s := (sin (sqrt (sqdist f x y i j) / Q2R periodicity * PI)
                     / Q2R length_scale)%R in
           M i j = exp (- 2 * (s * s)).
Proof.
  intros length_scale periodicity.
  destruct (select_cdist_value "euclidean") as [d [Hsel Hd]].
  unfold pairwise in Hd. rewrite Nat.eqb_refl in Hd.
  cbn [String.eqb Ascii.eqb Bool.eqb] in Hd.
  cbn [convert_kernel is_float_or_int negb].
  change (match x_train with None => X | Some x_train0 => x_train0 end)
    with (second_operand X x_train).
  unfold _convert_exp_sine_squared.
  rewrite Hsel, !(py_make_float_array_Ok _ _ Hdt).
  cbn [bind hostval_of_param].
  pose proof Hdt as Hni.
  do 2 eexists. split; [reflexivity|]. eval_formula Hd Hni.
  split; [reflexivity|].
  intros i j Hi Hj. cbn beta zeta. rewrite !(bidx_lt m j Hj).
  cbn [nth cst_denote].
  assert (Em2 : Q2R (-2) = (-2)%R) by (unfold Q2R; simpl; lra).
  rewrite Em2, Q2R_2, tpow_2. f_equal. ring.
Qed.

(** X15: DotProduct(sigma_0) with a scalar [sigma_0], without a training
    set or with a 2-dimensional training array, compiles to the matrix of
    scalar products of the points plus sigma_0 squared; the transposition
    done on the host for an array and the Transpose node emitted otherwise
    give the same value. *)
Theorem dot_product_value :
  forall sigma_0 : Q,
    train_set_is_2d x_train = true ->
    exists g M,
      convert_kernel (DotProduct (PNum sigma_0)) X names x_train dtype optim
        (Some opv) = Ok g
      /\ eval rho g = Some (TMat n m M)
      /\ forall i j, i < n -> j < m ->
           M i j = (dot f x y i j + Q2R sigma_0 * Q2R sigma_0)%R.
Proof.
  intros sigma_0.
  intros H2d.
  assert (E : convert_kernel (DotProduct (PNum sigma_0)) X names x_train
                dtype optim (Some opv)
              = _convert_dot_product X (second_operand X x_train)
                  (PNum sigma_0) dtype opv names).
  { cbn [convert_kernel is_float_or_int negb].
    destruct x_train as [xt|]; [|reflexivity].
    simpl in H2d. unfold shape_attr.
    destruct (as_ndarray xt) as [a|]; [|discriminate H2d].
    cbn [bind]. now rewrite H2d. }
  rewrite E. unfold _convert_dot_product.
  rewrite (py_make_float_array_Ok _ _ Hdt).
  cbn [bind hostval_of_param param_sq].
  pose proof Hdt as Hni.
  assert (Htr : eval rho
                  match as_ndarray (second_operand X x_train) with
                  | Some a => NpTransposed dtype a
                  | None =>
                    OnnxTranspose (second_operand X x_train) [1; 0] opv
                  end
                = Some (TMat f m (fun k j => y j k))).
  { destruct (second_operand X x_train) as [| a | | | | |] eqn:EY;
      cbn [as_ndarray];
      try (unfold OnnxTranspose; cbn [eval eval_unop];
           cbn [eval] in HY; rewrite HY; reflexivity).
    destruct (eval_array_matrix rho a m f y HY) as [Hsh Hy].
    cbn [eval]. rewrite Hsh. now subst y. }
  do 2 eexists. split; [reflexivity|].
  unfold OnnxIdentity, OnnxAdd, OnnxMatMul.
  cbn [eval eval_binop eval_unop]. rewrite HX, Htr, Nat.eqb_refl.
  rewrite (eval_NpArray_scalar _ _ Hni), broadcast2_mat_scalar.
  split; [reflexivity|].
  intros i j Hi Hj. cbn beta. rewrite (bidx_lt m j Hj).
  cbn [nth cst_denote]. now rewrite Q2R_sq.
Qed.

(** X16: PairwiseKernel with the cosine metric compiles to the matrix of
    scalar products of the points each divided by its Euclidean norm,
    whether the second point set is an array normalized on the host or an
    operand normalized by emitted nodes. *)
Theorem cosine_kernel_value :
  exists g M,
    convert_kernel (PairwiseKernel "cosine") X names x_train dtype optim
      (Some opv) = Ok g
    /\ eval rho g = Some (TMat n m M)
    /\ forall i j, i < n -> j < m ->
         M i j = rsum f (fun k =>
                   (x i k / sqrt (row_sumsq f x i)
                    * (y j k / sqrt (row_sumsq f y j)))%R).
Proof.
  assert (E : convert_kernel (PairwiseKernel "cosine") X names x_train dtype
                optim (Some opv)
              = _convert_pairwise_kernel X (second_operand X x_train)
                  "cosine" dtype opv optim names)
    by (destruct x_train; reflexivity).
  rewrite E. unfold _convert_pairwise_kernel.
  cbn [String.eqb Ascii.eqb Bool.eqb].
  assert (Hnt : exists nt N,
            match as_ndarray (second_operand X x_train) with
            | Some a =>
              if List.length (nd_shape a) <? 2 then Raise ValueError
              else Ok (NpCosineTransposed dtype a)
            | None =>
              Ok (OnnxTranspose
                    (OnnxDiv (second_operand X x_train)
                       (OnnxReduceL2_typed dtype (second_operand X x_train)
                          [1] opv) opv) [1; 0] opv)
            end = Ok nt
            /\ eval rho nt = Some (TMat f m N)
            /\ forall k j, k < f -> j < m ->
                 N k j = (y j k / sqrt (row_sumsq f y j))%R).
  { destruct (second_operand X x_train) as [| a | | | | |] eqn:EY;
      cbn [as_ndarray];
      try (do 2 eexists; split; [reflexivity|];
           unfold OnnxTranspose, OnnxDiv, OnnxReduceL2_typed;
           cbn [eval eval_unop eval_binop]; cbn [eval] in HY; rewrite HY;
           cbn [is_axes_1 is_perm_10]; rewrite broadcast2_mat_column;
           split; [reflexivity|];
           intros k j Hk Hj; cbn beta;
           now rewrite (bidx_lt m j Hj), (bidx_lt f k Hk)).
    destruct (eval_array_matrix rho a m f y HY) as [Hsh Hy].
    rewrite Hsh. cbn [List.length Nat.ltb Nat.leb].
    do 2 eexists. split; [reflexivity|].
    cbn [eval]. rewrite Hsh. split; [reflexivity|].
    intros k j Hk Hj. cbn beta. now subst y. }
  destruct Hnt as [nt [N [Hnt [HN HNv]]]]. rewrite Hnt. cbn [bind].
  do 2 eexists. split; [reflexivity|].
  unfold OnnxIdentity, OnnxMatMul, OnnxDiv, OnnxReduceL2_typed.
  cbn [eval eval_binop eval_unop]. rewrite HX, HN.
  cbn [is_axes_1]. rewrite broadcast2_mat_column. rewrite Nat.eqb_refl.
  split; [reflexivity|].
  intros i j Hi Hj. cbn beta. apply rsum_ext. intros k Hk.
  now rewrite (bidx_lt n i Hi), (bidx_lt f k Hk), (HNv k j Hk Hj).
Qed.

End PairwiseKernels.

Lemma rbf_value_witness :
  exists g M,
    convert_kernel (RBF (PArr [1; 2]%Q)) (Array three_points) None
      (Some (Array unit_x)) (Some float32) (Some "cdist") (Some 18) = Ok g
    /\ eval (fun _ => None) g = Some (TMat 3 1 M)
    /\ forall i j, i < 3 -> j < 1 ->
         M i j = exp (- (scaled_sqdist (PArr [1; 2]%Q) 2
                           (nd_entry three_points 2) (nd_entry unit_x 2) i j
                         / 2)).
Proof.
  apply (rbf_value (fun _ => None) (Array three_points)
           (Some (Array unit_x)) 3 1 2 (nd_entry three_points 2)
           (nd_entry unit_x 2) None (Some float32) (Some "cdist") 18);
    reflexivity.
Defined.

Lemma matern_value_witness :
  exists g M,
    convert_kernel (Matern (PNum 2) (Fin (1 # 2))) (Array three_points) None
      (Some (Array unit_x)) (Some float32) None (Some 18) = Ok g
    /\ eval (fun _ => None) g = Some (TMat 3 1 M)
    /\ forall i j, i < 3 -> j < 1 ->
         M i j = exp (- sqrt (scaled_sqdist (PNum 2) 2
                                (nd_entry three_points 2) (nd_entry unit_x 2)
                                i j)).
Proof.
  apply (matern_value (fun _ => None) (Array three_points)
           (Some (Array unit_x)) 3 1 2 (nd_entry three_points 2)
           (nd_entry unit_x 2) None (Some float32) None 18);
    reflexivity.
Defined.

Lemma rbf_equals_matern_inf_witness :
  exists g g' M M',
    convert_kernel (RBF (PNum 2)) (Array three_points) None None
      (Some float32) None (Some 18) = Ok g
    /\ convert_kernel (Matern (PNum 2) Inf) (Array three_points) None None
         (Some float32) None (Some 18) = Ok g'
    /\ eval (fun _ => None) g = Some (TMat 3 3 M)
    /\ eval (fun _ => None) g' = Some (TMat 3 3 M')
    /\ forall i j, i < 3 -> j < 3 -> M i j = M' i j.
Proof.
  apply (rbf_equals_matern_inf (fun _ => None) (Array three_points) None
           3 3 2 (nd_entry three_points 2) (nd_entry three_points 2) None
           (Some float32) None 18); reflexivity.
Defined.

Lemma rational_quadratic_value_witness :
  exists g M,
    convert_kernel (RationalQuadratic 1 2) (Array three_points) None
      (Some (Array unit_x)) (Some float32) None (Some 18) = Ok g
    /\ eval (fun _ => None) g = Some (TMat 3 1 M)
    /\ forall i j, i < 3 -> j < 1 ->
         M i j = Rpower
                   (sqdist 2 (nd_entry three_points 2) (nd_entry unit_x 2) i j
                    / (Q2R 1 * Q2R 1 * Q2R 2 * 2) + 1)
                   (- Q2R 2).
Proof.
  apply (rational_quadratic_value (fun _ => None) (Array three_points)
           (Some (Array unit_x)) 3 1 2 (nd_entry three_points 2)
           (nd_entry unit_x 2) None (Some float32) None 18);
    try reflexivity.
  - rewrite Q2R_2. lra.
  - rewrite RMicromega.Q2R_1. lra.
Defined.

Lemma exp_sine_squared_value_witness :
  exists g M,
    convert_kernel (ExpSineSquared (PNum 1) 3) (Array three_points) None
      (Some (Array unit_x)) (Some float32) None (Some 18) = Ok g
    /\ eval (fun _ => None) g = Some (TMat 3 1 M)
    /\ forall i j, i < 3 -> j < 1 ->
         let s := (sin (sqrt (sqdist 2 (nd_entry three_points 2)
                                (nd_entry unit_x 2) i j) / Q2R 3 * PI)
                   / Q2R 1)%R in
         M i j = exp (- 2 * (s * s)).
Proof.
  apply (exp_sine_squared_value (fun _ => None) (Array three_points)
           (Some (Array unit_x)) 3 1 2 (nd_entry three_points 2)
           (nd_entry unit_x 2) None (Some float32) None 18);
    reflexivity.
Defined.

Lemma dot_product_value_witness :
  exists g M,
    convert_kernel (DotProduct (PNum 1)) (Input "X") None
      (Some (Array unit_x)) (Some float32) None (Some 18) = Ok g
    /\ eval rho_2x2 g = Some (TMat 2 1 M)
    /\ forall i j, i < 2 -> j < 1 ->
         M i j = (dot 2 (fun i j => INR (i + j)) (nd_entry unit_x 2) i j
                  + Q2R 1 * Q2R 1)%R.
Proof.
  apply (dot_product_value rho_2x2 (Input "X") (Some (Array unit_x)) 2 1 2 (fun i j => INR (i + j))
           (nd_entry unit_x 2) None (Some float32) None 18);
    reflexivity.
Defined.

Lemma cosine_kernel_value_witness :
  exists g M,
    convert_kernel (PairwiseKernel "cosine") (Input "X") None
      (Some (Array unit_x)) (Some float32) None (Some 18) = Ok g
    /\ eval rho_2x2 g = Some (TMat 2 1 M)
    /\ forall i j, i < 2 -> j < 1 ->
         M i j = rsum 2 (fun k =>
                   (INR (i + k)
                    / sqrt (row_sumsq 2 (fun i j => INR (i + j)) i)
                    * (nd_entry unit_x 2 j k
                       / sqrt (row_sumsq 2 (nd_entry unit_x 2) j)))%R).
Proof.
  apply (cosine_kernel_value rho_2x2 (Input "X") (Some (Array unit_x)) 2 1 2
           (fun i j => INR (i + j)) (nd_entry unit_x 2) None (Some float32)
           None 18); reflexivity.
Defined.

(** ** A point set against itself *)

Lemma pdist_is_cdist_with_itself (rho : env) (a : onnx) (metric : string)
    (dtype : option np_dtype) (opv : nat) :
  eval rho (onnx_squareform_pdist a metric dtype opv)
  = eval rho (onnx_cdist a a metric dtype opv).
Proof.
  unfold onnx_squareform_pdist, onnx_cdist. cbn [eval eval_unop eval_binop].
  destruct (eval rho a); reflexivity.
Qed.

Lemma matern_formula_same_value (rho : env) (nu : pyfloat) (d d' : onnx)
    (names : option (list string)) (dtype : option np_dtype) (opv : nat) :
  eval rho d = eval rho d' ->
  match matern_formula nu d names dtype opv,
        matern_formula nu d' names dtype opv with
  | Ok g, Ok g' => eval rho g = eval rho g'
  | Raise e, Raise e' => e = e'
  | _, _ => False
  end.
Proof.
  intros H. unfold matern_formula.
  destruct (pyfloat_eqb nu (Fin (1 # 2)));
    [unfold_ops; cbn [eval]; now rewrite H|].
  destruct (pyfloat_eqb nu (Fin (3 # 2)));
    [unfold_ops; cbn [eval]; now rewrite H|].
  destruct (pyfloat_eqb nu (Fin (5 # 2)));
    [unfold_ops; cbn [eval]; now rewrite H|].
  destruct (pyfloat_eqb nu Inf); [|reflexivity].
  unfold_ops; cbn [eval]; now rewrite H.
Qed.

(** X17: under the unfused strategy, leaving the training set out and
    handing [X] over as the training set give the same exception or graphs
    with the same value, for every expression without a WhiteKernel (when
    it holds a DotProduct, [X] has to be a 2-dimensional array for
    [x_train.shape] to pass). *)
Theorem no_train_set_is_X_against_itself :
  forall (k : kernel) (rho : env) (X : onnx) (names : option (list string))
         (dtype : option np_dtype) (opv : nat),
    has_white_kernel k = false ->
    (has_dot_product k = true -> train_set_is_2d (Some X) = true) ->
    match convert_kernel k X names None dtype None (Some opv),
          convert_kernel k X names (Some X) dtype None (Some opv) with
    | Ok g, Ok g' => eval rho g = eval rho g'
    | Raise e, Raise e' => e = e'
    | _, _ => False
    end.
Proof.
  intros k rho X names dtype opv. revert names.
  induction k; intros names Hw Hd; simpl in Hw, Hd;
    cbn [convert_kernel]; try discriminate Hw;
    try (match goal with
         | |- match ?r with Ok _ => _ | Raise _ => _ end =>
           solve [destruct r; reflexivity]
         end).
  - apply orb_false_elim in Hw as [Hw1 Hw2].
    assert (Hd1 : has_dot_product k1 = true -> train_set_is_2d (Some X) = true)
      by (intros E; apply Hd; now rewrite E).
    assert (Hd2 : has_dot_product k2 = true -> train_set_is_2d (Some X) = true)
      by (intros E; apply Hd; rewrite E; apply orb_true_r).
    specialize (IHk1 None Hw1 Hd1). specialize (IHk2 None Hw2 Hd2).
    destruct (convert_kernel k1 X None None dtype None (Some opv)) as [a|e],
             (convert_kernel k1 X None (Some X) dtype None (Some opv))
               as [a'|e']; try contradiction; cbn [bind]; [|exact IHk1].
    destruct (convert_kernel k2 X None None dtype None (Some opv)) as [b|e],
             (convert_kernel k2 X None (Some X) dtype None (Some opv))
               as [b'|e']; try contradiction; cbn [bind]; [|exact IHk2].
    unfold OnnxAdd. cbn [eval]. now rewrite IHk1, IHk2.
  - apply orb_false_elim in Hw as [Hw1 Hw2].
    assert (Hd1 : has_dot_product k1 = true -> train_set_is_2d (Some X) = true)
      by (intros E; apply Hd; now rewrite E).
    assert (Hd2 : has_dot_product k2 = true -> train_set_is_2d (Some X) = true)
      by (intros E; apply Hd; rewrite E; apply orb_true_r).
    specialize (IHk1 None Hw1 Hd1). specialize (IHk2 None Hw2 Hd2).
    destruct (convert_kernel k1 X None None dtype None (Some opv)) as [a|e],
             (convert_kernel k1 X None (Some X) dtype None (Some opv))
               as [a'|e']; try contradiction; cbn [bind]; [|exact IHk1].
    destruct (convert_kernel k2 X None None dtype None (Some opv)) as [b|e],
             (convert_kernel k2 X None (Some X) dtype None (Some opv))
               as [b'|e']; try contradiction; cbn [bind]; [|exact IHk2].
    unfold OnnxMul. cbn [eval]. now rewrite IHk1, IHk2.
  - unfold zeros_matrix, _zero_vector_of_size. cbn [bind]. reflexivity.
  - unfold scaled_distance. cbn [bind]. unfold_ops. cbn [eval].
    now rewrite pdist_is_cdist_with_itself.
  - unfold scaled_distance. cbn [bind].
    apply matern_formula_same_value. apply pdist_is_cdist_with_itself.
  - destruct (negb (is_float_or_int sigma_0)); [reflexivity|].
    specialize (Hd eq_refl). simpl in Hd. unfold shape_attr.
    destruct (as_ndarray X) as [a|]; [|discriminate Hd].
    cbn [bind]. rewrite Hd. cbn [negb].
    destruct (_convert_dot_product X X sigma_0 dtype opv names); reflexivity.
  - reflexivity.
Qed.

Lemma no_train_set_is_X_against_itself_witness :
  match convert_kernel all_kinds_with_a_value (Array three_points) None None
          (Some float32) None (Some 18),
        convert_kernel all_kinds_with_a_value (Array three_points) None
          (Some (Array three_points)) (Some float32) None (Some 18) with
  | Ok g, Ok g' => eval (fun _ => None) g = eval (fun _ => None) g'
  | Raise e, Raise e' => e = e'
  | _, _ => False
  end.
Proof.
  apply (no_train_set_is_X_against_itself all_kinds_with_a_value
           (fun _ => None) (Array three_points) None (Some float32) 18);
    reflexivity.
Defined.

(** ** Symmetry *)

Lemma sqdist_sym (f : nat) (x : nat -> nat -> R) (i j : nat) :
  sqdist f x x i j = sqdist f x x j i.
Proof. unfold sqdist. apply rsum_ext. intros k _. ring. Qed.

Lemma scaled_sqdist_sym (length_scale : param) (f : nat)
    (x : nat -> nat -> R) (i j : nat) :
  scaled_sqdist length_scale f x x i j = scaled_sqdist length_scale f x x j i.
Proof. unfold scaled_sqdist. apply rsum_ext. intros k _. ring. Qed.

Lemma dot_sym (f : nat) (x : nat -> nat -> R) (i j : nat) :
  dot f x x i j = dot f x x j i.
Proof. unfold dot. apply rsum_ext. intros k _. ring. Qed.

Lemma matern_formula_entries (rho : env) (nu : pyfloat) (d : onnx)
    (n m : nat) (D : nat -> nat -> R) (names : option (list string))
    (dtype : option np_dtype) (opv : nat) :
  nu_evaluates nu = true ->
  eval rho d = Some (TMat n m D) ->
  is_float_dtype dtype = true ->
  exists g M,
    matern_formula nu d names dtype opv = Ok g
    /\ eval rho g = Some (TMat n m M)
    /\ forall i j, i < n -> j < m -> M i j = matern_closed_form nu (D i j).
Proof.
  intros Hnu Hd Hdt.
  unfold nu_evaluates in Hnu. unfold matern_formula, matern_closed_form.
  destruct (pyfloat_eqb nu (Fin (1 # 2))).
  { do 2 eexists. split; [reflexivity|]. eval_formula Hd Hdt.
    split; [reflexivity|]. intros i j Hi Hj. reflexivity. }
  destruct (pyfloat_eqb nu (Fin (3 # 2))).
  { do 2 eexists. split; [reflexivity|]. eval_formula Hd Hdt.
    split; [reflexivity|]. intros i j Hi Hj. cbn beta.
    rewrite ?(bidx_lt n i Hi), !(bidx_lt m j Hj). cbn [nth cst_denote].
    now rewrite Q2R_3, RMicromega.Q2R_1. }
  destruct (pyfloat_eqb nu (Fin (5 # 2))); [discriminate Hnu|].
  destruct (pyfloat_eqb nu Inf); [|discriminate Hnu].
  do 2 eexists. split; [reflexivity|]. eval_formula Hd Hdt.
  split; [reflexivity|]. intros i j Hi Hj. cbn beta.
  rewrite ?(bidx_lt n i Hi), !(bidx_lt m j Hj). cbn [nth cst_denote].
  now rewrite Q2R_2.
Qed.

Lemma rational_quadratic_symmetric (rho : env) (X : onnx) (n f : nat)
    (x : nat -> nat -> R) (length_scale alpha : Q)
    (names : option (list string)) (dtype : option np_dtype)
    (optim : option string) (opv : nat) :
  eval rho X = Some (TMat n f x) ->
  is_float_dtype dtype = true ->
  recognized_optim optim = true ->
  exists g M,
    convert_kernel (RationalQuadratic length_scale alpha) X names None dtype
      optim (Some opv) = Ok g
    /\ eval rho g = Some (TMat n n M)
    /\ forall i j, i < n -> j < n -> M i j = M j i.
Proof.
  intros HX Hdt Ho.
  destruct (select_cdist_value rho X None n n f x x dtype optim opv HX HX Ho
              "sqeuclidean") as [d [Hsel Hd]].
  unfold pairwise in Hd. rewrite Nat.eqb_refl in Hd.
  cbn [String.eqb Ascii.eqb Bool.eqb second_operand] in Hd, Hsel.
  cbn [convert_kernel]. unfold _convert_rational_quadratic.
  rewrite Hsel, !(py_make_float_array_Ok _ _ Hdt). cbn [bind].
  pose proof Hdt as Hni.
  do 2 eexists. split; [reflexivity|]. eval_formula Hd Hni.
  split; [reflexivity|].
  intros i j Hi Hj. cbn beta.
  now rewrite !(bidx_lt n i Hi), !(bidx_lt n j Hj), (sqdist_sym f x i j).
Qed.

(** X18: without a training set, every expression of Constant, White,
    RBF, Matern ([nu] among 0.5, 1.5 and inf), RationalQuadratic, scalar
    ExpSineSquared, scalar DotProduct and cosine PairwiseKernel leaves, with
    length scales that fit the points, compiles to a graph whose value on
    [n] points is a symmetric n x n matrix. *)
Theorem kernel_matrix_is_symmetric :
  forall (k : kernel) (rho : env) (X : onnx) (n f : nat)
         (x : nat -> nat -> R) (names : option (list string))
         (dtype : option np_dtype) (optim : option string) (opv : nat),
    eval rho X = Some (TMat n f x) ->
    is_float_dtype dtype = true ->
    recognized_optim optim = true ->
    compiles_on k f = true ->
    exists g M,
      convert_kernel k X names None dtype optim (Some opv) = Ok g
      /\ eval rho g = Some (TMat n n M)
      /\ forall i j, i < n -> j < n -> M i j = M j i.
Proof.
  intros k rho X n f x names dtype optim opv HX Hdt Ho. revert names.
  induction k; intros names Hk; simpl in Hk; try discriminate Hk.
  - apply andb_prop in Hk as [Hk1 Hk2].
    destruct (IHk1 None Hk1) as [g1 [M1 [C1 [E1 S1]]]].
    destruct (IHk2 None Hk2) as [g2 [M2 [C2 [E2 S2]]]].
    cbn [convert_kernel]. rewrite C1, C2. cbn [bind].
    do 2 eexists. split; [reflexivity|].
    unfold OnnxAdd. cbn [eval eval_binop].
    rewrite E1, E2, broadcast2_mat_mat. split; [reflexivity|].
    intros i j Hi Hj. cbn beta.
    rewrite !(bidx_lt n i Hi), !(bidx_lt n j Hj).
    now rewrite (S1 i j Hi Hj), (S2 i j Hi Hj).
  - apply andb_prop in Hk as [Hk1 Hk2].
    destruct (IHk1 None Hk1) as [g1 [M1 [C1 [E1 S1]]]].
    destruct (IHk2 None Hk2) as [g2 [M2 [C2 [E2 S2]]]].
    cbn [convert_kernel]. rewrite C1, C2. cbn [bind].
    do 2 eexists. split; [reflexivity|].
    unfold OnnxMul. cbn [eval eval_binop].
    rewrite E1, E2, broadcast2_mat_mat. split; [reflexivity|].
    intros i j Hi Hj. cbn beta.
    rewrite !(bidx_lt n i Hi), !(bidx_lt n j Hj).
    now rewrite (S1 i j Hi Hj), (S2 i j Hi Hj).
  - destruct (constant_kernel_entries rho X None n f n f x x constant_value
                names dtype optim opv HX HX Hdt) as [g [M [Hg [HM Hv]]]].
    exists g, M. split; [exact Hg|]. split; [exact HM|].
    intros i j _ _. now rewrite !Hv.
  - destruct (rbf_entries rho X None n n f x x names dtype optim opv HX HX Hdt
                Ho length_scale Hk) as [g [M [Hg [HM Hv]]]].
    exists g, M. split; [exact Hg|]. split; [exact HM|].
    intros i j Hi Hj.
    now rewrite (Hv i j Hi Hj), (Hv j i Hj Hi), scaled_sqdist_sym.
  - apply andb_prop in Hk as [Hfit Hnu].
    destruct (scaled_distance_value rho X None n n f x x false length_scale
                dtype optim opv HX HX Hfit Hdt Ho) as [d [D [Hsd [Hd HD]]]].
    destruct (matern_formula_entries rho nu d n n D names dtype opv Hnu Hd Hdt)
      as [g [M [Hg [HM Hv]]]].
    cbn [convert_kernel]. rewrite Hsd. cbn [bind].
    exists g, M. split; [exact Hg|]. split; [exact HM|].
    intros i j Hi Hj.
    rewrite (Hv i j Hi Hj), (Hv j i Hj Hi), !HD.
    cbn [orb negb matern_gets_euclidean]. now rewrite scaled_sqdist_sym.
  - now apply (rational_quadratic_symmetric rho X n f x).
  - destruct length_scale as [q|w]; [|discriminate Hk].
    destruct (exp_sine_squared_entries rho X None n n f x x names dtype optim
                opv HX HX Hdt Ho q periodicity) as [g [M [Hg [HM Hv]]]].
    exists g, M. split; [exact Hg|]. split; [exact HM|].
    intros i j Hi Hj.
    rewrite (Hv i j Hi Hj), (Hv j i Hj Hi). cbn zeta.
    now rewrite sqdist_sym.
  - destruct sigma_0 as [q|w]; [|discriminate Hk].
    destruct (dot_product_entries rho X None n n f x x names dtype optim opv
                HX HX Hdt q eq_refl) as [g [M [Hg [HM Hv]]]].
    exists g, M. split; [exact Hg|]. split; [exact HM|].
    intros i j Hi Hj.
    now rewrite (Hv i j Hi Hj), (Hv j i Hj Hi), dot_sym.
  - apply String.eqb_eq in Hk. subst metric.
    destruct (cosine_entries rho X None n n f x x names dtype optim opv HX HX)
      as [g [M [Hg [HM Hv]]]].
    exists g, M. split; [exact Hg|]. split; [exact HM|].
    intros i j Hi Hj.
    rewrite (Hv i j Hi Hj), (Hv j i Hj Hi). apply rsum_ext.
    intros k _. ring.
  - destruct (white_kernel_entries rho X n f x noise_level names dtype optim
                opv HX Hdt) as [[g [M [Hg [HM Hv]]]] _].
    exists g, M. split; [exact Hg|]. split; [exact HM|].
    intros i j Hi Hj.
    rewrite (Hv i j Hj), (Hv j i Hi), Nat.eqb_sym. reflexivity.
Qed.

Lemma kernel_matrix_is_symmetric_witness :
  exists g M,
    convert_kernel
      (Sum all_kinds_with_a_value
         (Product (WhiteKernel (1 # 2)) (PairwiseKernel "cosine")))
      (Array three_points) None None (Some float32) (Some "cdist") (Some 18)
      = Ok g
    /\ eval (fun _ => None) g = Some (TMat 3 3 M)
    /\ forall i j, i < 3 -> j < 3 -> M i j = M j i.
Proof.
  apply (kernel_matrix_is_symmetric
           (Sum all_kinds_with_a_value
              (Product (WhiteKernel (1 # 2)) (PairwiseKernel "cosine")))
           (fun _ => None) (Array three_points) 3 2 (nd_entry three_points 2)
           None (Some float32) (Some "cdist") 18); reflexivity.
Defined.
